(** * sigstore-go: transparency-log submission and the trust-root model

    A shallow embedding of [pkg/sign/transparency.go] (module [Sign]) and of
    the trust-root operations exercised by [pkg/root]'s test file (module
    [Root]), with the properties the specification states about them. *)

From Stdlib Require Import ZArith Lia.
From stdpp Require Import base option list strings gmap.

Local Open Scope Z_scope.

(** Go's [[]byte]. *)
Abbreviation bytes := (list Z) (only parsing).

(** Go's [error] values carry a message; [errors.New] builds one. *)
Record error : Type := errors_New { Error : string }.

#[global] Instance error_eq_dec : EqDecision error.
Proof. solve_decision. Defined.

(** A Go call returning [(T, error)], inspected with [if err != nil]. *)
Definition result (A : Type) : Type := (A + error)%type.

(* ===================================================================== *)
(** * pkg/sign: the Rekor transparency-log submitter                     *)
(* ===================================================================== *)
Module Sign.

(** ** Data of the collaborating packages, as far as the code touches it *)

(** [time.Duration] is a count of nanoseconds. *)
Definition Duration : Type := Z.
Definition Second : Duration := 1000000000.

(** [context.Context], only passed through. *)
Definition Context : Type := string.

(** protobuf-specs, common/v1 *)
Record HashOutput : Type := { Algorithm : Z; Digest : bytes }.
Record MessageSignature : Type :=
  { MessageDigest : option HashOutput;     (* a pointer: may be nil *)
    Signature : bytes }.
Record X509Certificate : Type := { RawBytes : bytes }.

(** protobuf-specs, dsse *)
Record Envelope : Type :=
  { Payload : bytes; PayloadType : string; Signatures : list bytes }.

(** protobuf-specs, rekor/v1 *)
Record TransparencyLogEntry : Type :=
  { LogIndex : Z; LogId : string; IntegratedTime : Z;
    InclusionProof : bytes; CanonicalizedBody : bytes }.

(** protobuf-specs, bundle/v1: [VerificationMaterial.Content] is a oneof,
    each alternative wrapping a pointer. *)
Inductive isVerificationMaterial_Content : Type :=
| VerificationMaterial_PublicKey (hint : option string)
| VerificationMaterial_X509CertificateChain (chain : option (list X509Certificate))
| VerificationMaterial_Certificate (cert : option X509Certificate).

Record VerificationMaterial : Type :=
  { vm_Content : option isVerificationMaterial_Content;
    (* a slice: [None] is the nil slice *)
    TlogEntries : option (list TransparencyLogEntry) }.

(** [Bundle.Content] is a oneof as well. *)
Inductive isBundle_Content : Type :=
| Bundle_MessageSignature (ms : option MessageSignature)
| Bundle_DsseEnvelope (env : option Envelope).

Record Bundle : Type :=
  { MediaType : string;
    Bundle_VerificationMaterial : option VerificationMaterial;  (* pointer *)
    Content : option isBundle_Content }.

(** The generated getters accept a nil receiver and answer nil. *)
Definition GetDsseEnvelope (b : option Bundle) : option Envelope :=
  match b with
  | Some x =>
      match Content x with
      | Some (Bundle_DsseEnvelope env) => env
      | _ => None
      end
  | None => None
  end.

Definition GetMessageSignature (b : option Bundle) : option MessageSignature :=
  match b with
  | Some x =>
      match Content x with
      | Some (Bundle_MessageSignature ms) => ms
      | _ => None
      end
  | None => None
  end.

Definition GetVerificationMaterial (b : option Bundle) : option VerificationMaterial :=
  match b with
  | Some x => Bundle_VerificationMaterial x
  | None => None
  end.

Definition GetCertificate (vm : option VerificationMaterial) : option X509Certificate :=
  match vm with
  | Some x =>
      match vm_Content x with
      | Some (VerificationMaterial_Certificate cert) => cert
      | _ => None
      end
  | None => None
  end.

(** rekor, pkg/types *)
Record ArtifactProperties : Type :=
  { ArtifactHash : string;
    ArtifactBytes : bytes;
    SignatureBytes : bytes;
    PublicKeyBytes : list bytes;
    PKIFormat : string }.

(** rekor, pkg/generated/models *)
Record ProposedEntry : Type := { pe_Kind : string; pe_Spec : bytes }.
Record LogEntryAnon : Type :=
  { lea_Body : bytes; lea_IntegratedTime : Z; lea_LogID : string; lea_LogIndex : Z }.
Definition LogEntryAnon_zero : LogEntryAnon :=
  {| lea_Body := []; lea_IntegratedTime := 0; lea_LogID := ""; lea_LogIndex := 0 |}.

(** rekor, pkg/generated/client/entries *)
Record CreateLogEntryParams : Type :=
  { timeout : Duration;
    params_ProposedEntry : option ProposedEntry;
    params_Context : option Context }.

Definition SetTimeout (t : Duration) (p : CreateLogEntryParams) : CreateLogEntryParams :=
  {| timeout := t;
     params_ProposedEntry := params_ProposedEntry p;
     params_Context := params_Context p |}.
Definition SetProposedEntry (e : ProposedEntry) (p : CreateLogEntryParams) : CreateLogEntryParams :=
  {| timeout := timeout p;
     params_ProposedEntry := Some e;
     params_Context := params_Context p |}.
Definition SetContext (c : Context) (p : CreateLogEntryParams) : CreateLogEntryParams :=
  {| timeout := timeout p;
     params_ProposedEntry := params_ProposedEntry p;
     params_Context := Some c |}.

Record CreateLogEntryCreated : Type :=
  { ETag : string;
    Location : string;
    resp_Payload : gmap string LogEntryAnon }.

(** ** transparency.go *)

(** The [RekorClient] interface has the single method [CreateLogEntry];
    its response is a pointer, so a client may answer [(nil, nil)]. *)
Record RekorClient : Type :=
  { CreateLogEntry : CreateLogEntryParams -> result (option CreateLogEntryCreated) }.

Record RekorOptions : Type :=
  { BaseURL : string;
    Timeout : Duration;
    Retries : N;
    Client : option RekorClient }.

Definition set_Timeout (t : Duration) (o : RekorOptions) : RekorOptions :=
  {| BaseURL := BaseURL o; Timeout := t; Retries := Retries o; Client := Client o |}.
Definition set_Client (c : option RekorClient) (o : RekorOptions) : RekorOptions :=
  {| BaseURL := BaseURL o; Timeout := Timeout o; Retries := Retries o; Client := c |}.

Definition set_TlogEntries (l : option (list TransparencyLogEntry))
    (vm : VerificationMaterial) : VerificationMaterial :=
  {| vm_Content := vm_Content vm; TlogEntries := l |}.
Definition set_VerificationMaterial (vm : option VerificationMaterial)
    (b : Bundle) : Bundle :=
  {| MediaType := MediaType b;
     Bundle_VerificationMaterial := vm;
     Content := Content b |}.

(** Go's [append] on a possibly nil slice. *)
Definition append {A} (s : option (list A)) (x : A) : option (list A) :=
  Some (default [] s ++ [x]).

(** The two objects the method reaches through pointers and may write to:
    the options behind [r.options] and the bundle behind [b] ([None] is a
    nil pointer).  [requests] records, in order, the requests handed to the
    client's [CreateLogEntry]. *)
Record heap : Type :=
  { options : option RekorOptions;
    bundle : option Bundle;
    requests : list CreateLogEntryParams }.

Definition with_options (o : option RekorOptions) (h : heap) : heap :=
  {| options := o; bundle := bundle h; requests := requests h |}.
Definition with_bundle (b : option Bundle) (h : heap) : heap :=
  {| options := options h; bundle := b; requests := requests h |}.
Definition with_request (p : CreateLogEntryParams) (h : heap) : heap :=
  {| options := options h; bundle := bundle h; requests := requests h ++ [p] |}.

(** How a statement ends: it falls through with a value, the method returns
    ([return err] / [return nil]), or a nil dereference panics. *)
Inductive step (A : Type) : Type :=
| Continue (a : A) (h : heap)
| Return (err : option error) (h : heap)
| Panic (h : heap).
Arguments Continue {A} a h.
Arguments Return {A} err h.
Arguments Panic {A} h.

Definition M (A : Type) : Type := heap -> step A.

#[global] Instance M_ret : MRet M := fun A a h => Continue a h.
#[global] Instance M_bind : MBind M := fun A B f m h =>
  match m h with
  | Continue a h' => f a h'
  | Return err h' => Return err h'
  | Panic h' => Panic h'
  end.

Definition return_ {A} (err : option error) : M A := fun h => Return err h.
Definition panic {A} : M A := fun h => Panic h.

(** [x, err := f(...); if err != nil { return err }] *)
Definition try {A} (r : result A) : M A :=
  match r with
  | inl a => mret a
  | inr e => return_ (Some e)
  end.

(** Dereferencing a pointer held in a local. *)
Definition deref {A} (p : option A) : M A :=
  match p with
  | Some a => mret a
  | None => panic
  end.

Definition get_b : M (option Bundle) := fun h => Continue (bundle h) h.
(** [r.options.f]: reads through the pointer. *)
Definition get_options : M RekorOptions := fun h =>
  match options h with
  | Some o => Continue o h
  | None => Panic h
  end.
Definition put_options (o : RekorOptions) : M unit := fun h =>
  Continue tt (with_options (Some o) h).
Definition put_b (b : Bundle) : M unit := fun h =>
  Continue tt (with_bundle (Some b) h).
Definition call_CreateLogEntry (c : RekorClient) (p : CreateLogEntryParams)
  : M (option CreateLogEntryCreated) := fun h =>
  try (CreateLogEntry c p) (with_request p h).

Section GetTransparencyLogEntry.

(** The collaborators the method calls. *)
Variable json_Marshal : Envelope -> result bytes.
Variable dsse_CreateProposedEntry :
  Context -> string -> ArtifactProperties -> result ProposedEntry.
Variable hashedrekord_CreateProposedEntry :
  Context -> string -> ArtifactProperties -> result ProposedEntry.
Variable hex_EncodeToString : bytes -> string.
Variable rekorUtil_PrefixSHA : string -> string.
Variable pki_X509 : string.
Variable NewCreateLogEntryParams : CreateLogEntryParams.
Variable ConstructUserAgent : string.
(** [client.GetRekorClient(url, WithUserAgent(ua), WithRetryCount(n))],
    projected on its [Entries] service. *)
Variable client_GetRekorClient : string -> string -> N -> result RekorClient.
Variable tle_GenerateTransparencyLogEntry :
  LogEntryAnon -> result TransparencyLogEntry.

(** Lines 71-117: choose the entry type from the signature's shape. *)
Definition proposeEntry (ctx : Context) (pubKeyPEM : bytes) : M ProposedEntry :=
  let artifactProperties :=
    {| ArtifactHash := ""; ArtifactBytes := []; SignatureBytes := [];
       PublicKeyBytes := [pubKeyPEM]; PKIFormat := "" |} in
  b ← get_b;
  let dsseEnvelope := GetDsseEnvelope b in
  let messageSignature := GetMessageSignature b in
  let verificationMaterial := GetVerificationMaterial b in
  let bundleCertificate := GetCertificate verificationMaterial in
  match dsseEnvelope, messageSignature with
  | Some env, _ =>
      artifactBytes ← try (json_Marshal env);
      let artifactProperties :=
        {| ArtifactHash := ArtifactHash artifactProperties;
           ArtifactBytes := artifactBytes;
           SignatureBytes := SignatureBytes artifactProperties;
           PublicKeyBytes := PublicKeyBytes artifactProperties;
           PKIFormat := PKIFormat artifactProperties |} in
      try (dsse_CreateProposedEntry ctx "" artifactProperties)
  | None, Some ms =>
      match bundleCertificate with
      | None =>
          return_ (Some (errors_New "hashedrekord requires X.509 certificate"))
      | Some _ =>
          digest ← deref (MessageDigest ms);
          let hexDigest := hex_EncodeToString (Digest digest) in
          let artifactProperties :=
            {| ArtifactHash := rekorUtil_PrefixSHA hexDigest;
               ArtifactBytes := ArtifactBytes artifactProperties;
               SignatureBytes := Signature ms;
               PublicKeyBytes := PublicKeyBytes artifactProperties;
               PKIFormat := pki_X509 |} in
          try (hashedrekord_CreateProposedEntry ctx "" artifactProperties)
      end
  | None, None =>
      return_ (Some (errors_New "unable to find signature in bundle"))
  end.

(** Lines 119-127: the request and its timeout. *)
Definition buildParams (ctx : Context) (proposedEntry : ProposedEntry)
  : M CreateLogEntryParams :=
  let params := NewCreateLogEntryParams in
  o ← get_options;
  params ←
    (if bool_decide (Timeout o >= 0) then
       (if bool_decide (Timeout o = 0)
        then put_options (set_Timeout (30 * Second) o)
        else mret tt);;
       o ← get_options;
       mret (SetTimeout (Timeout o) params)
     else mret params);
  let params := SetProposedEntry proposedEntry params in
  let params := SetContext ctx params in
  mret params.

(** Lines 129-135: build the client on first use and keep it. *)
Definition ensureClient : M unit :=
  o ← get_options;
  match Client o with
  | None =>
      client ← try (client_GetRekorClient (BaseURL o) ConstructUserAgent (Retries o));
      put_options (set_Client (Some client) o)
  | Some _ => mret tt
  end.

(** Lines 137-154: submit, transform, append. *)
Definition submitAndAppend (params : CreateLogEntryParams) : M unit :=
  o ← get_options;
  client ← deref (Client o);
  resp ← call_CreateLogEntry client params;
  resp ← deref resp;
  let entry := default LogEntryAnon_zero (resp_Payload resp !! ETag resp) in
  tlogEntry ← try (tle_GenerateTransparencyLogEntry entry);
  b ← get_b;
  b ← deref b;
  vm ← deref (Bundle_VerificationMaterial b);
  let vm :=
    match TlogEntries vm with
    | None => set_TlogEntries (Some []) vm
    | Some _ => vm
    end in
  let vm := set_TlogEntries (append (TlogEntries vm) tlogEntry) vm in
  put_b (set_VerificationMaterial (Some vm) b);;
  return_ None.

(** [func (r *Rekor) GetTransparencyLogEntry(ctx, pubKeyPEM, b) error] *)
Definition GetTransparencyLogEntry (ctx : Context) (pubKeyPEM : bytes) : M unit :=
  proposedEntry ← proposeEntry ctx pubKeyPEM;
  params ← buildParams ctx proposedEntry;
  ensureClient;;
  submitAndAppend params.

(** ** Reading a run *)

Definition heap_of {A} (s : step A) : heap :=
  match s with
  | Continue _ h => h
  | Return _ h => h
  | Panic h => h
  end.

(** The timeout the request carries, from the configured one. *)
Definition effective_Timeout (o : RekorOptions) : Duration :=
  if bool_decide (Timeout o = 0) then 30 * Second else Timeout o.

(** The client the submission goes through: the injected one, or the one
    built on first use. *)
Definition client_for (o : RekorOptions) : result RekorClient :=
  match Client o with
  | Some c => inl c
  | None => client_GetRekorClient (BaseURL o) ConstructUserAgent (Retries o)
  end.

(** The request lines 119-127 build. *)
Definition request_for (ctx : Context) (pe : ProposedEntry) (o : RekorOptions)
  : CreateLogEntryParams :=
  SetContext ctx (SetProposedEntry pe
    (if bool_decide (Timeout o >= 0)
     then SetTimeout (effective_Timeout o) NewCreateLogEntryParams
     else NewCreateLogEntryParams)).

(** The options once the request and the client are in place. *)
Definition options_after (o : RekorOptions) : RekorOptions :=
  let o1 := if bool_decide (Timeout o = 0) then set_Timeout (30 * Second) o else o in
  match Client o, client_for o with
  | None, inl c => set_Client (Some c) o1
  | _, _ => o1
  end.

(** The bundle's transparency-log entries, as a sequence. *)
Definition tlog_entries (b : option Bundle) : list TransparencyLogEntry :=
  match GetVerificationMaterial b with
  | Some vm => default [] (TlogEntries vm)
  | None => []
  end.

(** ** What each phase does to the heap *)

Lemma bind_unfold {A B} (m : M A) (f : A -> M B) (h : heap) :
  (m ≫= f) h =
  match m h with
  | Continue a h' => f a h'
  | Return err h' => Return err h'
  | Panic h' => Panic h'
  end.
Proof. reflexivity. Qed.

Lemma try_heap {A} (r : result A) (h : heap) : heap_of (try r h) = h.
Proof. by destruct r. Qed.

Lemma deref_heap {A} (p : option A) (h : heap) : heap_of (deref p h) = h.
Proof. by destruct p. Qed.

(** Choosing the proposed entry reads the bundle and writes nothing. *)
Lemma proposeEntry_heap ctx pubKeyPEM h :
  heap_of (proposeEntry ctx pubKeyPEM h) = h.
Proof.
  unfold proposeEntry. rewrite bind_unfold. cbn.
  destruct (GetDsseEnvelope (bundle h)) as [env|].
  - rewrite bind_unfold. destruct (json_Marshal env); cbn; [|done].
    apply try_heap.
  - destruct (GetMessageSignature (bundle h)) as [ms|]; [|done].
    destruct (GetCertificate _); [|done].
    rewrite bind_unfold. destruct (MessageDigest ms); cbn; [|done].
    apply try_heap.
Qed.

(** When it returns, it returns an error. *)
Lemma proposeEntry_returns_error ctx pubKeyPEM h h' :
  proposeEntry ctx pubKeyPEM h <> Return None h'.
Proof.
  unfold proposeEntry, try, deref, return_, panic, get_b.
  unfold mbind, M_bind, mret, M_ret.
  repeat case_match; congruence.
Qed.

Lemma buildParams_spec ctx pe h o :
  options h = Some o ->
  buildParams ctx pe h =
  Continue
    (SetContext ctx (SetProposedEntry pe
       (if bool_decide (Timeout o >= 0)
        then SetTimeout (effective_Timeout o) NewCreateLogEntryParams
        else NewCreateLogEntryParams)))
    (if bool_decide (Timeout o = 0)
     then with_options (Some (set_Timeout (30 * Second) o)) h
     else h).
Proof.
  intros Ho. unfold buildParams, effective_Timeout.
  rewrite bind_unfold. unfold get_options at 1. rewrite Ho.
  rewrite bind_unfold.
  destruct (bool_decide (Timeout o >= 0)) eqn:Hge.
  - destruct (bool_decide (Timeout o = 0)) eqn:Hz.
    + reflexivity.
    + unfold mbind, M_bind, mret, M_ret, get_options. by rewrite Ho.
  - rewrite bool_decide_eq_false in Hge.
    rewrite bool_decide_eq_false_2 by lia. reflexivity.
Qed.

Lemma buildParams_nil ctx pe h :
  options h = None -> buildParams ctx pe h = Panic h.
Proof.
  intros Ho. unfold buildParams. rewrite bind_unfold.
  unfold get_options. by rewrite Ho.
Qed.

Lemma ensureClient_spec h o :
  options h = Some o ->
  ensureClient h =
  match Client o with
  | Some _ => Continue tt h
  | None =>
      match client_GetRekorClient (BaseURL o) ConstructUserAgent (Retries o) with
      | inl c => Continue tt (with_options (Some (set_Client (Some c) o)) h)
      | inr e => Return (Some e) h
      end
  end.
Proof.
  intros Ho. unfold ensureClient. rewrite bind_unfold.
  unfold get_options. rewrite Ho.
  destruct (Client o); [done|].
  rewrite bind_unfold.
  by destruct (client_GetRekorClient _ _ _).
Qed.

(** The last phase either appends one entry and returns nil, or stops
    with the bundle as it found it. *)
Lemma submitAndAppend_spec params h :
  match submitAndAppend params h with
  | Continue _ _ => False
  | Return None h' =>
      exists b vm tlogEntry,
        bundle h = Some b /\
        Bundle_VerificationMaterial b = Some vm /\
        bundle h' =
          Some (set_VerificationMaterial
                  (Some (set_TlogEntries
                           (Some (default [] (TlogEntries vm) ++ [tlogEntry])) vm)) b) /\
        options h' = options h
  | Return (Some _) h' | Panic h' =>
      bundle h' = bundle h /\ options h' = options h
  end.
Proof.
  unfold submitAndAppend, call_CreateLogEntry, get_options, get_b, put_b.
  unfold mbind, M_bind, mret, M_ret.
  destruct (options h) as [o|] eqn:Ho; [|done].
  destruct (Client o) as [c|]; cbn; [|done].
  destruct (CreateLogEntry c params) as [resp|e]; cbn; [|done].
  destruct resp as [resp|]; cbn; [|done].
  destruct (tle_GenerateTransparencyLogEntry _) as [tlogEntry|e]; cbn; [|done].
  destruct (bundle h) as [b|] eqn:Hb; cbn; [|done].
  destruct (Bundle_VerificationMaterial b) as [vm|] eqn:Hvm; cbn; [|done].
  exists b, vm, tlogEntry. repeat split; try done.
  destruct (TlogEntries vm) eqn:Ht; unfold set_TlogEntries, append; cbn; by rewrite ?Ht.
Qed.

Lemma with_options_same h : with_options (options h) h = h.
Proof. by destruct h. Qed.

(** The whole method, phase by phase. *)
Lemma GetTransparencyLogEntry_run ctx pubKeyPEM h :
  GetTransparencyLogEntry ctx pubKeyPEM h =
  match proposeEntry ctx pubKeyPEM h with
  | Continue pe _ =>
      match options h with
      | None => Panic h
      | Some o =>
          let h' := with_options (Some (options_after o)) h in
          match client_for o with
          | inl _ => submitAndAppend (request_for ctx pe o) h'
          | inr e => Return (Some e) h'
          end
      end
  | Return err _ => Return err h
  | Panic _ => Panic h
  end.
Proof.
  unfold GetTransparencyLogEntry. rewrite bind_unfold.
  pose proof (proposeEntry_heap ctx pubKeyPEM h) as Hh.
  destruct (proposeEntry ctx pubKeyPEM h) as [pe h1|err h1|h1];
    cbn in Hh; subst h1; [|done..].
  rewrite bind_unfold.
  destruct (options h) as [o|] eqn:Ho; [|by rewrite buildParams_nil].
  rewrite (buildParams_spec ctx pe h o Ho). fold (request_for ctx pe o).
  rewrite bind_unfold.
  set (h1 := if bool_decide (Timeout o = 0) then _ else h).
  set (o1 := if bool_decide (Timeout o = 0) then set_Timeout (30 * Second) o else o).
  assert (Ho1 : options h1 = Some o1).
  { subst h1 o1. by destruct (bool_decide (Timeout o = 0)). }
  assert (Hh1 : h1 = with_options (Some o1) h).
  { subst h1 o1. destruct (bool_decide (Timeout o = 0)); [done|].
    by rewrite <- Ho, with_options_same. }
  assert (Hc : Client o1 = Client o /\ BaseURL o1 = BaseURL o /\ Retries o1 = Retries o).
  { subst o1. by destruct (bool_decide (Timeout o = 0)). }
  destruct Hc as (Hc & Hu & Hr).
  rewrite (ensureClient_spec h1 o1 Ho1), Hc, Hu, Hr.
  unfold options_after, client_for. fold o1. cbn zeta.
  destruct (Client o) as [c|]; [by rewrite Hh1|].
  destruct (client_GetRekorClient _ _ _) as [c|e]; by rewrite Hh1.
Qed.

(** The two signature shapes share one oneof field. *)
Lemma message_signature_excludes_envelope b ms :
  GetMessageSignature b = Some ms -> GetDsseEnvelope b = None.
Proof.
  destruct b as [b|]; [|done]. cbn.
  by destruct (Content b) as [[?|?]|].
Qed.

(** ** The properties *)

(** C4. A bundle whose signature content is a message signature and whose
    verification material carries no X.509 certificate is refused with the
    error "hashedrekord requires X.509 certificate"; nothing the method
    can reach is written, so the bundle and its transparency-log entries
    are as before. *)
Theorem missing_certificate_is_refused ctx pubKeyPEM h ms :
  GetMessageSignature (bundle h) = Some ms ->
  GetCertificate (GetVerificationMaterial (bundle h)) = None ->
  GetTransparencyLogEntry ctx pubKeyPEM h =
    Return (Some (errors_New "hashedrekord requires X.509 certificate")) h
  /\ tlog_entries (bundle (heap_of (GetTransparencyLogEntry ctx pubKeyPEM h)))
     = tlog_entries (bundle h).
Proof.
  intros Hms Hcert.
  assert (Hrun : GetTransparencyLogEntry ctx pubKeyPEM h =
    Return (Some (errors_New "hashedrekord requires X.509 certificate")) h).
  { rewrite GetTransparencyLogEntry_run. unfold proposeEntry.
    rewrite bind_unfold. cbn.
    by rewrite (message_signature_excludes_envelope _ _ Hms), Hms, Hcert. }
  by rewrite Hrun.
Qed.

(** C5. Whenever the method returns a non-nil error, whatever the failure
    point, the bundle is the one that was passed in. *)
Theorem error_leaves_bundle_unmodified ctx pubKeyPEM h err h' :
  GetTransparencyLogEntry ctx pubKeyPEM h = Return (Some err) h' ->
  bundle h' = bundle h.
Proof.
  rewrite GetTransparencyLogEntry_run.
  destruct (proposeEntry ctx pubKeyPEM h) as [pe ?|? ?|?]; [|congruence..].
  destruct (options h) as [o|]; [|done]. cbn zeta.
  destruct (client_for o) as [c|e].
  - intros Hrun.
    pose proof (submitAndAppend_spec (request_for ctx pe o)
                  (with_options (Some (options_after o)) h)) as Hs.
    rewrite Hrun in Hs. by destruct Hs as [-> _].
  - by intros [= _ <-].
Qed.

(** C6. When the method returns nil, the entries of the bundle are the
    former ones followed by exactly one new entry: the sequence is present
    afterwards (it is created when it was absent), it is one longer, every
    former entry keeps its position, and nothing else in the bundle
    changes. *)
Theorem success_appends_one_entry ctx pubKeyPEM h h' :
  GetTransparencyLogEntry ctx pubKeyPEM h = Return None h' ->
  exists b vm tlogEntry,
    bundle h = Some b /\
    Bundle_VerificationMaterial b = Some vm /\
    bundle h' =
      Some (set_VerificationMaterial
              (Some (set_TlogEntries
                       (Some (tlog_entries (bundle h) ++ [tlogEntry])) vm)) b) /\
    tlog_entries (bundle h') = tlog_entries (bundle h) ++ [tlogEntry] /\
    length (tlog_entries (bundle h')) = S (length (tlog_entries (bundle h))) /\
    (forall (i : nat) x, tlog_entries (bundle h) !! i = Some x ->
                 tlog_entries (bundle h') !! i = Some x).
Proof.
  rewrite GetTransparencyLogEntry_run.
  pose proof (proposeEntry_returns_error ctx pubKeyPEM h) as Hne.
  destruct (proposeEntry ctx pubKeyPEM h) as [pe ?|[?|] ?|?];
    [|congruence| |congruence].
  2:{ by destruct (Hne h0). }
  destruct (options h) as [o|]; [|done]. cbn zeta.
  destruct (client_for o) as [c|e]; [|done].
  intros Hrun.
  pose proof (submitAndAppend_spec (request_for ctx pe o)
                (with_options (Some (options_after o)) h)) as Hs.
  rewrite Hrun in Hs. destruct Hs as (b & vm & e & Hb & Hvm & Hb' & _).
  cbn in Hb. exists b, vm, e.
  assert (Hold : tlog_entries (bundle h) = default [] (TlogEntries vm)).
  { unfold tlog_entries. by rewrite Hb; cbn; rewrite Hvm. }
  assert (Hnew : tlog_entries (bundle h') = tlog_entries (bundle h) ++ [e]).
  { rewrite Hold, Hb'. reflexivity. }
  rewrite Hold in *. repeat split; try done.
  - rewrite Hnew, length_app. cbn. lia.
  - intros i x Hi. rewrite Hnew. by apply lookup_app_l_Some.
Qed.

(** The last phase hands the client at most one request: the one it was
    given. *)
Lemma submitAndAppend_requests params h :
  requests (heap_of (submitAndAppend params h)) = requests h \/
  requests (heap_of (submitAndAppend params h)) = requests h ++ [params].
Proof.
  unfold submitAndAppend, call_CreateLogEntry, get_options, get_b, put_b.
  unfold try, deref, return_, panic, mbind, M_bind, mret, M_ret.
  repeat case_match; simplify_eq; cbn; auto.
Qed.




(** C10. A bundle that carries a DSSE envelope and whose verification
    material is nil passes every check (the getters tolerate the nil
    pointer), is submitted, and, the submission having succeeded, the
    method panics on the nil verification material instead of returning
    an error. *)
Theorem nil_verification_material_panics
    ctx pubKeyPEM h b env o c artifactBytes pe resp tlogEntry :
  bundle h = Some b ->
  Content b = Some (Bundle_DsseEnvelope (Some env)) ->
  Bundle_VerificationMaterial b = None ->
  options h = Some o ->
  json_Marshal env = inl artifactBytes ->
  dsse_CreateProposedEntry ctx ""
    {| ArtifactHash := ""; ArtifactBytes := artifactBytes; SignatureBytes := [];
       PublicKeyBytes := [pubKeyPEM]; PKIFormat := "" |} = inl pe ->
  client_for o = inl c ->
  CreateLogEntry c (request_for ctx pe o) = inl (Some resp) ->
  tle_GenerateTransparencyLogEntry
    (default LogEntryAnon_zero (resp_Payload resp !! ETag resp)) = inl tlogEntry ->
  proposeEntry ctx pubKeyPEM h = Continue pe h /\
  exists h',
    GetTransparencyLogEntry ctx pubKeyPEM h = Panic h' /\
    bundle h' = Some b /\
    requests h' = requests h ++ [request_for ctx pe o].
Proof.
  intros Hb Hc Hvm Ho Hj Hd Hcl Hs Ht.
  assert (Hp : proposeEntry ctx pubKeyPEM h = Continue pe h).
  { unfold proposeEntry. rewrite bind_unfold. cbn. rewrite Hb. cbn.
    rewrite Hc. rewrite bind_unfold, Hj. cbn. by rewrite Hd. }
  split; [done|].
  rewrite GetTransparencyLogEntry_run, Hp, Ho. cbn zeta. rewrite Hcl.
  unfold submitAndAppend, call_CreateLogEntry, get_options, get_b, put_b.
  unfold mbind, M_bind, mret, M_ret. cbn.
  assert (Hco : Client (options_after o) = Some c).
  { unfold options_after, client_for in *.
    destruct (Client o) as [c0|] eqn:Hclient.
    - simplify_eq. by destruct (bool_decide (Timeout o = 0)).
    - by rewrite Hcl. }
  rewrite Hco. cbn. rewrite Hs. cbn. rewrite Ht. cbn. rewrite Hb. cbn.
  rewrite Hvm. cbn. eexists. split; [done|]. by cbn.
Qed.

(** What one call does to the options behind [r.options]. *)
Lemma options_of_run ctx pubKeyPEM h o :
  options h = Some o ->
  options (heap_of (GetTransparencyLogEntry ctx pubKeyPEM h)) =
  Some match proposeEntry ctx pubKeyPEM h with
       | Continue _ _ => options_after o
       | _ => o
       end.
Proof.
  intros Ho. rewrite GetTransparencyLogEntry_run.
  destruct (proposeEntry ctx pubKeyPEM h) as [pe ?|? ?|?]; [|done..].
  rewrite Ho. cbn zeta.
  destruct (client_for o) as [c|e]; [|done].
  pose proof (submitAndAppend_spec (request_for ctx pe o)
                (with_options (Some (options_after o)) h)) as Hs.
  destruct (submitAndAppend _ _) as [? ?|[?|] ?|?]; cbn; [done|..].
  - by destruct Hs as [_ ->].
  - by destruct Hs as (? & ? & ? & _ & _ & _ & ->).
  - by destruct Hs as [_ ->].
Qed.

Lemma options_after_fields o :
  BaseURL (options_after o) = BaseURL o /\
  Retries (options_after o) = Retries o /\
  Timeout (options_after o) = effective_Timeout o /\
  Client (options_after o) =
    match client_for o with inl c => Some c | inr _ => None end.
Proof.
  unfold options_after, client_for, effective_Timeout.
  destruct (Client o) as [c|] eqn:Hc;
    [|destruct (client_GetRekorClient _ _ _)];
    destruct (bool_decide (Timeout o = 0)); by cbn.
Qed.

(** C9 (as amended). A call writes to the options behind [r.options] only
    once a proposed entry has been built: from then on a zero [Timeout]
    is replaced by thirty seconds, and a nil [Client] by the client built
    on first use when building it succeeds.  A call that stops earlier
    leaves the options as they were.  [BaseURL] and [Retries] never
    change.  Later calls through the same [Rekor] start from the written
    values and keep them: a non-zero [Timeout] and a stored [Client] are
    never written again. *)
Theorem options_are_mutated_after_proposal ctx pubKeyPEM h o :
  options h = Some o ->
  exists o',
    options (heap_of (GetTransparencyLogEntry ctx pubKeyPEM h)) = Some o' /\
    BaseURL o' = BaseURL o /\
    Retries o' = Retries o /\
    match proposeEntry ctx pubKeyPEM h with
    | Continue _ _ =>
        Timeout o' = (if bool_decide (Timeout o = 0) then 30 * Second else Timeout o) /\
        Client o' =
          match Client o with
          | Some c => Some c
          | None =>
              match client_GetRekorClient (BaseURL o) ConstructUserAgent (Retries o) with
              | inl c => Some c
              | inr _ => None
              end
          end
    | _ => o' = o
    end /\
    forall ctx2 pubKeyPEM2 h2,
      options h2 = Some o' ->
      exists o'',
        options (heap_of (GetTransparencyLogEntry ctx2 pubKeyPEM2 h2)) = Some o'' /\
        (Timeout o' <> 0 -> Timeout o'' = Timeout o') /\
        (forall c, Client o' = Some c -> Client o'' = Some c).
Proof.
  intros Ho. eexists. split; [by apply options_of_run|].
  destruct (options_after_fields o) as (Hu & Hr & Ht & Hc).
  split; [by destruct (proposeEntry ctx pubKeyPEM h)|].
  split; [by destruct (proposeEntry ctx pubKeyPEM h)|].
  split.
  { destruct (proposeEntry ctx pubKeyPEM h); [|done..].
    split; [done|]. rewrite Hc. unfold client_for. by destruct (Client o). }
  intros ctx2 pubKeyPEM2 h2 Ho2. eexists. split; [by apply options_of_run|].
  set (o' := match proposeEntry ctx pubKeyPEM h with
             | Continue _ _ => options_after o | _ => o end).
  destruct (options_after_fields o') as (_ & _ & Ht' & Hc').
  split.
  - intros Hnz. destruct (proposeEntry ctx2 pubKeyPEM2 h2); [|done..].
    rewrite Ht'. unfold effective_Timeout. by rewrite bool_decide_eq_false_2.
  - intros c Hcl. destruct (proposeEntry ctx2 pubKeyPEM2 h2); [|done..].
    rewrite Hc'. unfold client_for. by rewrite Hcl.
Qed.

End GetTransparencyLogEntry.

(** ** Concrete runs against a stub log *)

Definition stub_entry : LogEntryAnon :=
  {| lea_Body := [1; 2; 3]; lea_IntegratedTime := 1700000000;
     lea_LogID := "c0d23d6a"; lea_LogIndex := 42 |}.

Definition stub_client : RekorClient :=
  {| CreateLogEntry := fun _ =>
       inl (Some {| ETag := "etag"; Location := "/api/v1/log/entries/etag";
                    resp_Payload := {[ "etag" := stub_entry ]} |}) |}.

(** A client whose transport fails. *)
Definition failing_client : RekorClient :=
  {| CreateLogEntry := fun _ => inr (errors_New "connection refused") |}.

Definition stub_Marshal (env : Envelope) : result bytes := inl (Payload env).
Definition stub_dsse (_ : Context) (_ : string) (a : ArtifactProperties)
  : result ProposedEntry :=
  inl {| pe_Kind := "dsse"; pe_Spec := ArtifactBytes a |}.
Definition stub_hashedrekord (_ : Context) (_ : string) (a : ArtifactProperties)
  : result ProposedEntry :=
  inl {| pe_Kind := "hashedrekord"; pe_Spec := SignatureBytes a |}.
Definition stub_hex (_ : bytes) : string := "00".
Definition stub_PrefixSHA (s : string) : string := String.append "sha256:" s.
Definition stub_NewParams : CreateLogEntryParams :=
  {| timeout := 30 * Second; params_ProposedEntry := None; params_Context := None |}.
Definition stub_GetRekorClient (_ _ : string) (_ : N) : result RekorClient :=
  inl stub_client.
Definition stub_tle (e : LogEntryAnon) : result TransparencyLogEntry :=
  inl {| LogIndex := lea_LogIndex e; LogId := lea_LogID e;
         IntegratedTime := lea_IntegratedTime e;
         InclusionProof := []; CanonicalizedBody := lea_Body e |}.

(** The method against the stubs. *)
Definition stub_run : Context -> bytes -> M unit :=
  GetTransparencyLogEntry stub_Marshal stub_dsse stub_hashedrekord stub_hex
    stub_PrefixSHA "x509" stub_NewParams "sigstore-go" stub_GetRekorClient stub_tle.

Definition an_envelope : Envelope :=
  {| Payload := [123; 125]; PayloadType := "application/vnd.in-toto+json";
     Signatures := [[7; 7]] |}.
Definition a_signature : MessageSignature :=
  {| MessageDigest := Some {| Algorithm := 1; Digest := [171; 205] |};
     Signature := [9; 9; 9] |}.
Definition an_old_entry : TransparencyLogEntry :=
  {| LogIndex := 7; LogId := "older"; IntegratedTime := 1600000000;
     InclusionProof := []; CanonicalizedBody := [] |}.

Definition opts (t : Duration) (c : option RekorClient) : RekorOptions :=
  {| BaseURL := "https://rekor.example"; Timeout := t; Retries := 1; Client := c |}.

Definition heap_with (o : RekorOptions) (b : Bundle) : heap :=
  {| options := Some o; bundle := Some b; requests := [] |}.

(** A signed envelope with one earlier log entry attached. *)
Definition dsse_bundle : Bundle :=
  {| MediaType := "application/vnd.dev.sigstore.bundle+json;version=0.2";
     Bundle_VerificationMaterial :=
       Some {| vm_Content := Some (VerificationMaterial_PublicKey (Some "hint"));
               TlogEntries := Some [an_old_entry] |};
     Content := Some (Bundle_DsseEnvelope (Some an_envelope)) |}.

(** A message signature whose verification material holds a key hint only. *)
Definition keyed_signature_bundle : Bundle :=
  {| MediaType := "application/vnd.dev.sigstore.bundle+json;version=0.2";
     Bundle_VerificationMaterial :=
       Some {| vm_Content := Some (VerificationMaterial_PublicKey (Some "hint"));
               TlogEntries := None |};
     Content := Some (Bundle_MessageSignature (Some a_signature)) |}.

(** An envelope with no verification material at all. *)
Definition bare_dsse_bundle : Bundle :=
  {| MediaType := "application/vnd.dev.sigstore.bundle+json;version=0.2";
     Bundle_VerificationMaterial := None;
     Content := Some (Bundle_DsseEnvelope (Some an_envelope)) |}.

(** No signature content. *)
Definition unsigned_bundle : Bundle :=
  {| MediaType := "application/vnd.dev.sigstore.bundle+json;version=0.2";
     Bundle_VerificationMaterial :=
       Some {| vm_Content := None; TlogEntries := None |};
     Content := None |}.

(** C4 at the key-hint bundle: refused, heap untouched. *)
Lemma missing_certificate_is_refused_witness :
  stub_run "ctx" [1] (heap_with (opts 0 None) keyed_signature_bundle) =
    Return (Some (errors_New "hashedrekord requires X.509 certificate"))
           (heap_with (opts 0 None) keyed_signature_bundle)
  /\ tlog_entries
       (bundle (heap_of (stub_run "ctx" [1]
                           (heap_with (opts 0 None) keyed_signature_bundle))))
     = tlog_entries (Some keyed_signature_bundle).
Proof.
  apply (missing_certificate_is_refused stub_Marshal stub_dsse stub_hashedrekord
           stub_hex stub_PrefixSHA "x509" stub_NewParams "sigstore-go"
           stub_GetRekorClient stub_tle "ctx" [1]
           (heap_with (opts 0 None) keyed_signature_bundle) a_signature);
    reflexivity.
Defined.

(** C5 when the log refuses the connection: the options have been written
    to and the request was made, yet the bundle is the one passed in. *)
Lemma error_leaves_bundle_unmodified_witness :
  let h := heap_with (opts 0 (Some failing_client)) dsse_bundle in
  let h' := {| options := Some (opts (30 * Second) (Some failing_client));
               bundle := Some dsse_bundle;
               requests :=
                 [ {| timeout := 30 * Second;
                      params_ProposedEntry :=
                        Some {| pe_Kind := "dsse"; pe_Spec := [123; 125] |};
                      params_Context := Some "ctx" |} ] |} in
  stub_run "ctx" [1] h = Return (Some (errors_New "connection refused")) h' /\
  bundle h' = bundle h.
Proof.
  intros h h'. split; [reflexivity|].
  apply (error_leaves_bundle_unmodified stub_Marshal stub_dsse stub_hashedrekord
           stub_hex stub_PrefixSHA "x509" stub_NewParams "sigstore-go"
           stub_GetRekorClient stub_tle "ctx" [1] h
           (errors_New "connection refused") h').
  reflexivity.
Defined.

(** C6 at the signed envelope: the earlier entry stays first, the log's
    answer follows it. *)
Lemma success_appends_one_entry_witness :
  let h := heap_with (opts 0 None) dsse_bundle in
  let h' := heap_of (stub_run "ctx" [1] h) in
  exists b vm tlogEntry,
    bundle h = Some b /\
    Bundle_VerificationMaterial b = Some vm /\
    bundle h' =
      Some (set_VerificationMaterial
              (Some (set_TlogEntries
                       (Some (tlog_entries (bundle h) ++ [tlogEntry])) vm)) b) /\
    tlog_entries (bundle h') = tlog_entries (bundle h) ++ [tlogEntry] /\
    length (tlog_entries (bundle h')) = S (length (tlog_entries (bundle h))) /\
    (forall (i : nat) x, tlog_entries (bundle h) !! i = Some x ->
                 tlog_entries (bundle h') !! i = Some x).
Proof.
  intros h h'.
  apply (success_appends_one_entry stub_Marshal stub_dsse stub_hashedrekord
           stub_hex stub_PrefixSHA "x509" stub_NewParams "sigstore-go"
           stub_GetRekorClient stub_tle "ctx" [1] h h').
  vm_compute. reflexivity.
Defined.

Example stub_run_appends :
  tlog_entries (bundle (heap_of (stub_run "ctx" [1]
                                   (heap_with (opts 0 None) dsse_bundle)))) =
  [an_old_entry;
   {| LogIndex := 42; LogId := "c0d23d6a"; IntegratedTime := 1700000000;
      InclusionProof := []; CanonicalizedBody := [1; 2; 3] |}].
Proof. vm_compute. reflexivity. Qed.



(** C10 at the envelope without verification material: submitted, then a
    panic. *)
Lemma nil_verification_material_panics_witness :
  let h := heap_with (opts 0 None) bare_dsse_bundle in
  let pe := {| pe_Kind := "dsse"; pe_Spec := [123; 125] |} in
  let p := {| timeout := 30 * Second; params_ProposedEntry := Some pe;
              params_Context := Some "ctx" |} in
  (Bundle_VerificationMaterial bare_dsse_bundle = None /\
   GetDsseEnvelope (Some bare_dsse_bundle) = Some an_envelope /\
   CreateLogEntry stub_client p =
     inl (Some {| ETag := "etag"; Location := "/api/v1/log/entries/etag";
                  resp_Payload := {[ "etag" := stub_entry ]} |})) /\
  exists h',
    stub_run "ctx" [1] h = Panic h' /\
    bundle h' = Some bare_dsse_bundle /\
    requests h' = [p].
Proof.
  intros h pe p. split; [by repeat split|].
  apply (nil_verification_material_panics stub_Marshal stub_dsse
           stub_hashedrekord stub_hex stub_PrefixSHA "x509" stub_NewParams
           "sigstore-go" stub_GetRekorClient stub_tle "ctx" [1] h
           bare_dsse_bundle an_envelope (opts 0 None) stub_client
           [123; 125] pe
           {| ETag := "etag"; Location := "/api/v1/log/entries/etag";
              resp_Payload := {[ "etag" := stub_entry ]} |}
           {| LogIndex := 42; LogId := "c0d23d6a"; IntegratedTime := 1700000000;
              InclusionProof := []; CanonicalizedBody := [1; 2; 3] |});
    reflexivity.
Defined.

Example stub_run_panics :
  stub_run "ctx" [1] (heap_with (opts 0 None) bare_dsse_bundle) =
  Panic {| options := Some (opts (30 * Second) (Some stub_client));
           bundle := Some bare_dsse_bundle;
           requests :=
             [ {| timeout := 30 * Second;
                  params_ProposedEntry :=
                    Some {| pe_Kind := "dsse"; pe_Spec := [123; 125] |};
                  params_Context := Some "ctx" |} ] |}.
Proof. reflexivity. Qed.

(** C9 (as amended) at a call that goes through with a zero timeout and no
    client. *)
Lemma options_are_mutated_after_proposal_witness :
  let h := heap_with (opts 0 None) dsse_bundle in
  options (heap_of (stub_run "ctx" [1] h)) =
    Some (opts (30 * Second) (Some stub_client)) /\
  exists o',
    options (heap_of (stub_run "ctx" [1] h)) = Some o' /\
    BaseURL o' = "https://rekor.example" /\
    Retries o' = 1%N.
Proof.
  intros h. split; [by vm_compute|].
  destruct (options_are_mutated_after_proposal stub_Marshal stub_dsse
              stub_hashedrekord stub_hex stub_PrefixSHA "x509" stub_NewParams
              "sigstore-go" stub_GetRekorClient stub_tle "ctx" [1] h
              (opts 0 None) eq_refl)
    as (o' & Ho' & Hu & Hr & _).
  exists o'. by repeat split.
Defined.

(** C9 as first stated fails at an unsigned bundle: the call is refused
    before line 119, so the zero [Timeout] is still zero and the nil
    [Client] still nil afterwards, although a client could have been
    built. *)
Lemma refused_call_keeps_options :
  let h := heap_with (opts 0 None) unsigned_bundle in
  stub_run "ctx" [1] h =
    Return (Some (errors_New "unable to find signature in bundle")) h /\
  Timeout (opts 0 None) = 0 /\
  Client (opts 0 None) = None /\
  stub_GetRekorClient "https://rekor.example" "sigstore-go" 1 = inl stub_client /\
  exists o',
    options (heap_of (stub_run "ctx" [1] h)) = Some o' /\
    Timeout o' = 0 /\
    Timeout o' <> 30 * Second /\
    Client o' = None.
Proof.
  intros h. repeat split; try reflexivity.
  exists (opts 0 None). by repeat split.
Qed.

(** ** Further behaviour of [GetTransparencyLogEntry] *)

Section Behaviour.

Variable json_Marshal : Envelope -> result bytes.
Variable dsse_CreateProposedEntry :
  Context -> string -> ArtifactProperties -> result ProposedEntry.
Variable hashedrekord_CreateProposedEntry :
  Context -> string -> ArtifactProperties -> result ProposedEntry.
Variable hex_EncodeToString : bytes -> string.
Variable rekorUtil_PrefixSHA : string -> string.
Variable pki_X509 : string.
Variable NewCreateLogEntryParams : CreateLogEntryParams.
Variable ConstructUserAgent : string.
Variable client_GetRekorClient : string -> string -> N -> result RekorClient.
Variable tle_GenerateTransparencyLogEntry :
  LogEntryAnon -> result TransparencyLogEntry.

(** The method and its parts, over the collaborators above. *)
Local Abbreviation run :=
  (GetTransparencyLogEntry json_Marshal dsse_CreateProposedEntry
     hashedrekord_CreateProposedEntry hex_EncodeToString rekorUtil_PrefixSHA
     pki_X509 NewCreateLogEntryParams ConstructUserAgent client_GetRekorClient
     tle_GenerateTransparencyLogEntry).
Local Abbreviation propose :=
  (proposeEntry json_Marshal dsse_CreateProposedEntry
     hashedrekord_CreateProposedEntry hex_EncodeToString rekorUtil_PrefixSHA
     pki_X509).
Local Abbreviation request := (request_for NewCreateLogEntryParams).
Local Abbreviation the_client := (client_for ConstructUserAgent client_GetRekorClient).
Local Abbreviation written := (options_after ConstructUserAgent client_GetRekorClient).

(** The artifact properties of the dsse case (lines 71-73 and 91). *)
Definition dsse_properties (pubKeyPEM artifactBytes : bytes) : ArtifactProperties :=
  {| ArtifactHash := ""; ArtifactBytes := artifactBytes; SignatureBytes := [];
     PublicKeyBytes := [pubKeyPEM]; PKIFormat := "" |}.

(** The artifact properties of the hashedrekord case (lines 71-73 and
    104-108). *)
Definition hashedrekord_properties (pubKeyPEM : bytes) (ms : MessageSignature)
    (digest : HashOutput) : ArtifactProperties :=
  {| ArtifactHash := rekorUtil_PrefixSHA (hex_EncodeToString (Digest digest));
     ArtifactBytes := [];
     SignatureBytes := Signature ms;
     PublicKeyBytes := [pubKeyPEM];
     PKIFormat := pki_X509 |}.

(** The bundle once [tlogEntry] has been appended (lines 148-152). *)
Definition appended (b : Bundle) (vm : VerificationMaterial)
    (tlogEntry : TransparencyLogEntry) : Bundle :=
  set_VerificationMaterial
    (Some (set_TlogEntries (Some (default [] (TlogEntries vm) ++ [tlogEntry])) vm)) b.

(** The options as lines 120-125 leave them. *)
Definition with_default_Timeout (o : RekorOptions) : RekorOptions :=
  if bool_decide (Timeout o = 0) then set_Timeout (30 * Second) o else o.

(** What a bundle keeps in any case: all but its log entries. *)
Definition bundle_frame (b : option Bundle)
  : option (string * option isBundle_Content
            * option (option isVerificationMaterial_Content)) :=
  (fun x => (MediaType x, Content x, vm_Content <$> Bundle_VerificationMaterial x)) <$> b.

(** *** The first phase, case by case *)

Lemma propose_dsse ctx pubKeyPEM h env :
  GetDsseEnvelope (bundle h) = Some env ->
  propose ctx pubKeyPEM h =
  match json_Marshal env with
  | inl artifactBytes =>
      match dsse_CreateProposedEntry ctx "" (dsse_properties pubKeyPEM artifactBytes) with
      | inl pe => Continue pe h
      | inr e => Return (Some e) h
      end
  | inr e => Return (Some e) h
  end.
Proof.
  intros Henv. unfold proposeEntry. rewrite bind_unfold. cbn. rewrite Henv.
  rewrite bind_unfold. destruct (json_Marshal env); cbn; [|done].
  unfold dsse_properties. by destruct (dsse_CreateProposedEntry _ _ _).
Qed.

Lemma propose_hashedrekord ctx pubKeyPEM h ms :
  GetMessageSignature (bundle h) = Some ms ->
  propose ctx pubKeyPEM h =
  match GetCertificate (GetVerificationMaterial (bundle h)) with
  | None => Return (Some (errors_New "hashedrekord requires X.509 certificate")) h
  | Some _ =>
      match MessageDigest ms with
      | None => Panic h
      | Some digest =>
          match hashedrekord_CreateProposedEntry ctx ""
                  (hashedrekord_properties pubKeyPEM ms digest) with
          | inl pe => Continue pe h
          | inr e => Return (Some e) h
          end
      end
  end.
Proof.
  intros Hms. unfold proposeEntry. rewrite bind_unfold. cbn.
  rewrite (message_signature_excludes_envelope _ _ Hms), Hms.
  destruct (GetCertificate _); [|done].
  rewrite bind_unfold. destruct (MessageDigest ms) as [digest|]; cbn; [|done].
  unfold hashedrekord_properties.
  by destruct (hashedrekord_CreateProposedEntry _ _ _).
Qed.

Lemma propose_keeps_heap ctx pubKeyPEM h (s : step ProposedEntry) :
  propose ctx pubKeyPEM h = s -> heap_of s = h.
Proof. intros <-. apply proposeEntry_heap. Qed.

(** The run once the proposed entry is there. *)
Lemma run_after_proposal ctx pubKeyPEM h pe h1 o :
  propose ctx pubKeyPEM h = Continue pe h1 ->
  options h = Some o ->
  run ctx pubKeyPEM h =
  match the_client o with
  | inl _ =>
      submitAndAppend tle_GenerateTransparencyLogEntry (request ctx pe o)
        (with_options (Some (written o)) h)
  | inr e => Return (Some e) (with_options (Some (written o)) h)
  end.
Proof.
  intros Hp Ho. by rewrite GetTransparencyLogEntry_run, Hp, Ho.
Qed.

Lemma run_without_proposal ctx pubKeyPEM h :
  run ctx pubKeyPEM h =
  match propose ctx pubKeyPEM h with
  | Continue pe _ => run ctx pubKeyPEM h
  | Return err _ => Return err h
  | Panic _ => Panic h
  end.
Proof.
  rewrite GetTransparencyLogEntry_run.
  by destruct (propose ctx pubKeyPEM h).
Qed.

Lemma written_client o c :
  the_client o = inl c -> Client (written o) = Some c.
Proof.
  unfold options_after, client_for. destruct (Client o) as [c0|] eqn:Hc.
  - intros [= ->]. by destruct (bool_decide (Timeout o = 0)).
  - by intros ->.
Qed.

(** The last phase, step by step. *)
Lemma submitAndAppend_run params h o c :
  options h = Some o ->
  Client o = Some c ->
  submitAndAppend tle_GenerateTransparencyLogEntry params h =
  match CreateLogEntry c params with
  | inr e => Return (Some e) (with_request params h)
  | inl None => Panic (with_request params h)
  | inl (Some resp) =>
      match tle_GenerateTransparencyLogEntry
              (default LogEntryAnon_zero (resp_Payload resp !! ETag resp)) with
      | inr e => Return (Some e) (with_request params h)
      | inl tlogEntry =>
          match bundle h with
          | None => Panic (with_request params h)
          | Some b =>
              match Bundle_VerificationMaterial b with
              | None => Panic (with_request params h)
              | Some vm =>
                  Return None
                    (with_bundle (Some (appended b vm tlogEntry)) (with_request params h))
              end
          end
      end
  end.
Proof.
  intros Ho Hc.
  unfold submitAndAppend, call_CreateLogEntry, get_options, get_b, put_b.
  unfold mbind, M_bind, mret, M_ret. rewrite Ho. cbn. rewrite Hc. cbn.
  destruct (CreateLogEntry c params) as [[resp|]|e]; cbn; [|done..].
  destruct (tle_GenerateTransparencyLogEntry _) as [tlogEntry|e]; cbn; [|done].
  destruct (bundle h) as [b|] eqn:Hb; cbn; [|done].
  destruct (Bundle_VerificationMaterial b) as [vm|] eqn:Hvm; cbn; [|done].
  unfold appended, return_. do 2 f_equal.
  destruct (TlogEntries vm) eqn:Ht; unfold set_TlogEntries, append; cbn;
    by rewrite ?Ht.
Qed.

(** A nil return, read backwards: every step went through, and the heap
    is the one they leave. *)
Lemma run_success ctx pubKeyPEM h h' :
  run ctx pubKeyPEM h = Return None h' ->
  exists pe o c resp tlogEntry b vm,
    propose ctx pubKeyPEM h = Continue pe h /\
    options h = Some o /\
    the_client o = inl c /\
    CreateLogEntry c (request ctx pe o) = inl (Some resp) /\
    tle_GenerateTransparencyLogEntry
      (default LogEntryAnon_zero (resp_Payload resp !! ETag resp)) = inl tlogEntry /\
    bundle h = Some b /\
    Bundle_VerificationMaterial b = Some vm /\
    h' = {| options := Some (written o);
            bundle := Some (appended b vm tlogEntry);
            requests := requests h ++ [request ctx pe o] |}.
Proof.
  intros Hrun.
  destruct (propose ctx pubKeyPEM h) as [pe h1|err h1|h1] eqn:Hp.
  - pose proof (propose_keeps_heap _ _ _ _ Hp) as Hh. cbn in Hh. subst h1.
    destruct (options h) as [o|] eqn:Ho.
    + rewrite (run_after_proposal _ _ _ _ _ _ Hp Ho) in Hrun.
      destruct (the_client o) as [c|e] eqn:Hc; [|done].
      rewrite (submitAndAppend_run _ _ (written o) c) in Hrun
        by (done || by apply written_client).
      destruct (CreateLogEntry c _) as [[resp|]|e] eqn:Hs; [|done..].
      destruct (tle_GenerateTransparencyLogEntry _) as [tlogEntry|e] eqn:Ht; [|done].
      cbn in Hrun. destruct (bundle h) as [b|] eqn:Hb; [|done].
      destruct (Bundle_VerificationMaterial b) as [vm|] eqn:Hvm; [|done].
      injection Hrun as <-. by exists pe, o, c, resp, tlogEntry, b, vm.
    + by rewrite GetTransparencyLogEntry_run, Hp, Ho in Hrun.
  - rewrite run_without_proposal, Hp in Hrun. injection Hrun as -> _.
    by destruct (proposeEntry_returns_error _ _ _ _ _ _ _ _ _ _ Hp).
  - by rewrite run_without_proposal, Hp in Hrun.
Qed.

(** Any other outcome leaves the bundle alone. *)
Lemma run_failure_keeps_bundle ctx pubKeyPEM h :
  (forall h', run ctx pubKeyPEM h <> Return None h') ->
  bundle (heap_of (run ctx pubKeyPEM h)) = bundle h.
Proof.
  intros Hfail. rewrite GetTransparencyLogEntry_run in *.
  destruct (propose ctx pubKeyPEM h) as [pe h1|err h1|h1]; [|done..].
  destruct (options h) as [o|]; [|done]. cbn zeta in *.
  destruct (the_client o) as [c|e]; [|done].
  pose proof (submitAndAppend_spec tle_GenerateTransparencyLogEntry
                (request ctx pe o) (with_options (Some (written o)) h)) as Hs.
  destruct (submitAndAppend _ _ _) as [? ?|[?|] h2|h2]; [done|..].
  - by destruct Hs.
  - by destruct (Hfail h2).
  - by destruct Hs.
Qed.

Lemma appended_differs b vm tlogEntry :
  Bundle_VerificationMaterial b = Some vm -> appended b vm tlogEntry <> b.
Proof.
  intros Hvm Heq. apply (f_equal Bundle_VerificationMaterial) in Heq.
  cbn in Heq. rewrite Hvm in Heq. injection Heq as Heq.
  apply (f_equal TlogEntries) in Heq. cbn in Heq.
  destruct (TlogEntries vm) as [l|]; [|done]. injection Heq as Heq.
  apply (f_equal length) in Heq. rewrite length_app in Heq. cbn in Heq. lia.
Qed.

(** *** Refusals before anything is written *)

(** X1. A bundle with neither a DSSE envelope nor a message signature (a
    nil bundle, no content, or a content wrapping a nil pointer) is refused
    with "unable to find signature in bundle", and nothing is written or
    sent. *)
Theorem no_signature_is_refused ctx pubKeyPEM h :
  GetDsseEnvelope (bundle h) = None ->
  GetMessageSignature (bundle h) = None ->
  run ctx pubKeyPEM h =
    Return (Some (errors_New "unable to find signature in bundle")) h.
Proof.
  intros Henv Hms. rewrite run_without_proposal.
  unfold proposeEntry. rewrite bind_unfold. cbn. by rewrite Henv, Hms.
Qed.

(** X2. In the dsse case an error of the envelope's serialization, or of the
    construction of the proposed entry from it, is returned as it is, and
    nothing is written or sent. *)
Theorem dsse_build_errors_are_returned ctx pubKeyPEM h env e :
  GetDsseEnvelope (bundle h) = Some env ->
  json_Marshal env = inr e \/
  (exists artifactBytes,
     json_Marshal env = inl artifactBytes /\
     dsse_CreateProposedEntry ctx "" (dsse_properties pubKeyPEM artifactBytes) = inr e) ->
  run ctx pubKeyPEM h = Return (Some e) h.
Proof.
  intros Henv Herr. rewrite run_without_proposal, (propose_dsse _ _ _ _ Henv).
  destruct Herr as [->|(artifactBytes & -> & ->)]; done.
Qed.

(** X3. In the hashedrekord case (message signature, certificate and digest
    present) the entry is proposed from the X.509 format tag, the signature
    bytes, the prefixed hex digest and the caller's key; an error of that
    construction is returned as it is, and nothing is written or sent. *)
Theorem hashedrekord_build_error_is_returned ctx pubKeyPEM h ms cert digest e :
  GetMessageSignature (bundle h) = Some ms ->
  GetCertificate (GetVerificationMaterial (bundle h)) = Some cert ->
  MessageDigest ms = Some digest ->
  hashedrekord_CreateProposedEntry ctx ""
    (hashedrekord_properties pubKeyPEM ms digest) = inr e ->
  run ctx pubKeyPEM h = Return (Some e) h.
Proof.
  intros Hms Hcert Hd He.
  by rewrite run_without_proposal, (propose_hashedrekord _ _ _ _ Hms), Hcert, Hd, He.
Qed.

(** X4. A message signature that comes with a certificate but whose message
    digest is nil makes the method panic at line 104, before anything is
    written or sent. *)
Theorem nil_message_digest_panics ctx pubKeyPEM h ms cert :
  GetMessageSignature (bundle h) = Some ms ->
  GetCertificate (GetVerificationMaterial (bundle h)) = Some cert ->
  MessageDigest ms = None ->
  run ctx pubKeyPEM h = Panic h.
Proof.
  intros Hms Hcert Hd.
  by rewrite run_without_proposal, (propose_hashedrekord _ _ _ _ Hms), Hcert, Hd.
Qed.

(** X5. With nil options the method panics at line 120 exactly for the
    bundles that yield a proposed entry; a bundle that is refused earlier
    still gets its error. *)
Theorem nil_options_panic_after_proposal ctx pubKeyPEM h :
  options h = None ->
  (forall pe h1,
     proposeEntry json_Marshal dsse_CreateProposedEntry
       hashedrekord_CreateProposedEntry hex_EncodeToString rekorUtil_PrefixSHA
       pki_X509 ctx pubKeyPEM h = Continue pe h1 ->
     run ctx pubKeyPEM h = Panic h) /\
  (forall err h1,
     proposeEntry json_Marshal dsse_CreateProposedEntry
       hashedrekord_CreateProposedEntry hex_EncodeToString rekorUtil_PrefixSHA
       pki_X509 ctx pubKeyPEM h = Return err h1 ->
     run ctx pubKeyPEM h = Return err h).
Proof.
  intros Ho. split.
  - intros pe h1 Hp. by rewrite GetTransparencyLogEntry_run, Hp, Ho.
  - intros err h1 Hp. by rewrite run_without_proposal, Hp.
Qed.

(** *** Failures after the proposal *)

(** X6. When no client was injected and building one fails, that error is
    returned as it is: no request is made, the bundle and the nil client
    stay, but a zero timeout has already been replaced by thirty seconds. *)
Theorem client_construction_failure ctx pubKeyPEM h pe o e :
  propose ctx pubKeyPEM h = Continue pe h ->
  options h = Some o ->
  Client o = None ->
  client_GetRekorClient (BaseURL o) ConstructUserAgent (Retries o) = inr e ->
  run ctx pubKeyPEM h =
    Return (Some e)
      {| options := Some (with_default_Timeout o);
         bundle := bundle h;
         requests := requests h |} /\
  Client (with_default_Timeout o) = None.
Proof.
  intros Hp Ho Hc He. rewrite (run_after_proposal _ _ _ _ _ _ Hp Ho).
  unfold client_for, options_after, client_for, with_default_Timeout.
  rewrite Hc, He. split; [done|].
  by destruct (bool_decide (Timeout o = 0)).
Qed.

(** X7. An error of the client's [CreateLogEntry] is returned as it is,
    after exactly that one request: the method does not retry, and the
    bundle is as before. *)
Theorem transport_failure_is_returned ctx pubKeyPEM h pe o c e :
  propose ctx pubKeyPEM h = Continue pe h ->
  options h = Some o ->
  the_client o = inl c ->
  CreateLogEntry c (request ctx pe o) = inr e ->
  run ctx pubKeyPEM h =
    Return (Some e)
      {| options := Some (written o);
         bundle := bundle h;
         requests := requests h ++ [request_for NewCreateLogEntryParams ctx pe o] |}.
Proof.
  intros Hp Ho Hc He. rewrite (run_after_proposal _ _ _ _ _ _ Hp Ho), Hc.
  rewrite (submitAndAppend_run _ _ (written o) c)
    by (done || by apply written_client).
  by rewrite He.
Qed.

(** X8. A client that answers with neither a response nor an error makes
    the method panic at line 142, after the request and with the bundle as
    before. *)
Theorem nil_response_panics ctx pubKeyPEM h pe o c :
  propose ctx pubKeyPEM h = Continue pe h ->
  options h = Some o ->
  the_client o = inl c ->
  CreateLogEntry c (request ctx pe o) = inl None ->
  run ctx pubKeyPEM h =
    Panic
      {| options := Some (written o);
         bundle := bundle h;
         requests := requests h ++ [request_for NewCreateLogEntryParams ctx pe o] |}.
Proof.
  intros Hp Ho Hc He. rewrite (run_after_proposal _ _ _ _ _ _ Hp Ho), Hc.
  rewrite (submitAndAppend_run _ _ (written o) c)
    by (done || by apply written_client).
  by rewrite He.
Qed.

(** X9. When the log has accepted the entry but its answer cannot be turned
    into a transparency-log entry, that error is returned as it is: the
    request has been made, and the bundle does not carry the entry. *)
Theorem transformation_failure_is_returned ctx pubKeyPEM h pe o c resp e :
  propose ctx pubKeyPEM h = Continue pe h ->
  options h = Some o ->
  the_client o = inl c ->
  CreateLogEntry c (request ctx pe o) = inl (Some resp) ->
  tle_GenerateTransparencyLogEntry
    (default LogEntryAnon_zero (resp_Payload resp !! ETag resp)) = inr e ->
  run ctx pubKeyPEM h =
    Return (Some e)
      {| options := Some (written o);
         bundle := bundle h;
         requests := requests h ++ [request ctx pe o] |}.
Proof.
  intros Hp Ho Hc Hs He. rewrite (run_after_proposal _ _ _ _ _ _ Hp Ho), Hc.
  rewrite (submitAndAppend_run _ _ (written o) c)
    by (done || by apply written_client).
  by rewrite Hs, He.
Qed.

(** *** Submissions that go through *)

Lemma run_succeeds_after_proposal ctx pubKeyPEM h pe o c resp tlogEntry b vm :
  propose ctx pubKeyPEM h = Continue pe h ->
  options h = Some o ->
  the_client o = inl c ->
  CreateLogEntry c (request ctx pe o) = inl (Some resp) ->
  tle_GenerateTransparencyLogEntry
    (default LogEntryAnon_zero (resp_Payload resp !! ETag resp)) = inl tlogEntry ->
  bundle h = Some b ->
  Bundle_VerificationMaterial b = Some vm ->
  run ctx pubKeyPEM h =
    Return None
      {| options := Some (written o);
         bundle := Some (appended b vm tlogEntry);
         requests := requests h ++ [request ctx pe o] |}.
Proof.
  intros Hp Ho Hc Hs Ht Hb Hvm.
  rewrite (run_after_proposal _ _ _ _ _ _ Hp Ho), Hc.
  rewrite (submitAndAppend_run _ _ (written o) c)
    by (done || by apply written_client).
  rewrite Hs, Ht. cbn. by rewrite Hb, Hvm.
Qed.

(** X10. A bundle with a DSSE envelope and verification material is
    submitted and extended whenever every collaborator succeeds: the
    envelope's serialization goes into the proposed entry together with the
    caller's key, one request is made, and the transformed answer is
    appended; the method returns nil. *)
Theorem dsse_submission_succeeds
    ctx pubKeyPEM h b env vm o c artifactBytes pe resp tlogEntry :
  bundle h = Some b ->
  Content b = Some (Bundle_DsseEnvelope (Some env)) ->
  Bundle_VerificationMaterial b = Some vm ->
  options h = Some o ->
  json_Marshal env = inl artifactBytes ->
  dsse_CreateProposedEntry ctx "" (dsse_properties pubKeyPEM artifactBytes) = inl pe ->
  the_client o = inl c ->
  CreateLogEntry c (request ctx pe o) = inl (Some resp) ->
  tle_GenerateTransparencyLogEntry
    (default LogEntryAnon_zero (resp_Payload resp !! ETag resp)) = inl tlogEntry ->
  run ctx pubKeyPEM h =
    Return None
      {| options := Some (written o);
         bundle := Some (appended b vm tlogEntry);
         requests := requests h ++ [request ctx pe o] |}.
Proof.
  intros Hb Hcontent Hvm Ho Hj Hd Hc Hs Ht.
  apply (run_succeeds_after_proposal _ _ _ _ _ c resp); try done.
  rewrite (propose_dsse _ _ _ env), Hj, Hd; [done|].
  rewrite Hb. cbn. by rewrite Hcontent.
Qed.

(** X11. A bundle with a message signature, its digest and an X.509
    certificate is submitted and extended whenever every collaborator
    succeeds: the entry is proposed from the X.509 format tag, the signature
    bytes, the prefixed hex digest and the caller's key; the method returns
    nil. *)
Theorem hashedrekord_submission_succeeds
    ctx pubKeyPEM h b ms digest cert vm o c pe resp tlogEntry :
  bundle h = Some b ->
  Content b = Some (Bundle_MessageSignature (Some ms)) ->
  MessageDigest ms = Some digest ->
  Bundle_VerificationMaterial b = Some vm ->
  vm_Content vm = Some (VerificationMaterial_Certificate (Some cert)) ->
  options h = Some o ->
  hashedrekord_CreateProposedEntry ctx ""
    (hashedrekord_properties pubKeyPEM ms digest) = inl pe ->
  the_client o = inl c ->
  CreateLogEntry c (request ctx pe o) = inl (Some resp) ->
  tle_GenerateTransparencyLogEntry
    (default LogEntryAnon_zero (resp_Payload resp !! ETag resp)) = inl tlogEntry ->
  run ctx pubKeyPEM h =
    Return None
      {| options := Some (written o);
         bundle := Some (appended b vm tlogEntry);
         requests := requests h ++ [request ctx pe o] |}.
Proof.
  intros Hb Hcontent Hdigest Hvm Hcert Ho Hd Hc Hs Ht.
  apply (run_succeeds_after_proposal _ _ _ _ _ c resp); try done.
  rewrite (propose_hashedrekord _ _ _ ms).
  - rewrite Hb. cbn. rewrite Hvm. cbn. by rewrite Hcert, Hdigest, Hd.
  - rewrite Hb. cbn. by rewrite Hcontent.
Qed.

(** X12. When the payload of the log's answer has no entry under the
    answer's ETag, the method does not notice: the zero-valued entry is what
    is transformed, and its transformation is what is appended. *)
Theorem missing_etag_appends_zero_entry
    ctx pubKeyPEM h pe o c resp tlogEntry b vm :
  propose ctx pubKeyPEM h = Continue pe h ->
  options h = Some o ->
  the_client o = inl c ->
  CreateLogEntry c (request ctx pe o) = inl (Some resp) ->
  resp_Payload resp !! ETag resp = None ->
  tle_GenerateTransparencyLogEntry LogEntryAnon_zero = inl tlogEntry ->
  bundle h = Some b ->
  Bundle_VerificationMaterial b = Some vm ->
  run ctx pubKeyPEM h =
    Return None
      {| options := Some (written o);
         bundle := Some (appended b vm tlogEntry);
         requests := requests h ++ [request ctx pe o] |}.
Proof.
  intros Hp Ho Hc Hs Hmiss Ht Hb Hvm.
  apply (run_succeeds_after_proposal _ _ _ _ _ c resp); try done.
  by rewrite Hmiss.
Qed.

(** X13. A nil return means that every step went through: the bundle gave
    a proposed entry, the options and a client were there, the one request
    was answered, the answer was transformed and the bundle had verification
    material; the heap afterwards is fully determined by them. *)
Theorem nil_return_means_every_step_succeeded ctx pubKeyPEM h h' :
  run ctx pubKeyPEM h = Return None h' ->
  exists pe o c resp tlogEntry b vm,
    propose ctx pubKeyPEM h = Continue pe h /\
    options h = Some o /\
    the_client o = inl c /\
    CreateLogEntry c (request ctx pe o) = inl (Some resp) /\
    tle_GenerateTransparencyLogEntry
      (default LogEntryAnon_zero (resp_Payload resp !! ETag resp)) = inl tlogEntry /\
    bundle h = Some b /\
    Bundle_VerificationMaterial b = Some vm /\
    h' = {| options := Some (written o);
            bundle := Some (appended b vm tlogEntry);
            requests := requests h ++ [request ctx pe o] |}.
Proof. apply run_success. Qed.

(** *** What a call never does *)

(** X14. A call makes at most one request, after the ones already made; the
    request it makes carries the caller's context and the entry proposed
    for the bundle. *)
Theorem at_most_one_request ctx pubKeyPEM h :
  requests (heap_of (run ctx pubKeyPEM h)) = requests h \/
  exists pe o,
    propose ctx pubKeyPEM h = Continue pe h /\
    options h = Some o /\
    requests (heap_of (run ctx pubKeyPEM h)) = requests h ++ [request ctx pe o] /\
    params_Context (request ctx pe o) = Some ctx /\
    params_ProposedEntry (request ctx pe o) = Some pe.
Proof.
  destruct (propose ctx pubKeyPEM h) as [pe h1|err h1|h1] eqn:Hp.
  - pose proof (propose_keeps_heap _ _ _ _ Hp) as Hh. cbn in Hh. subst h1.
    destruct (options h) as [o|] eqn:Ho.
    + rewrite (run_after_proposal _ _ _ _ _ _ Hp Ho).
      destruct (the_client o) as [c|e]; [|by left].
      destruct (submitAndAppend_requests tle_GenerateTransparencyLogEntry
                  (request ctx pe o) (with_options (Some (written o)) h))
        as [Hs|Hs]; [by left|].
      right. by exists pe, o.
    + left. by rewrite GetTransparencyLogEntry_run, Hp, Ho.
  - left. by rewrite run_without_proposal, Hp.
  - left. by rewrite run_without_proposal, Hp.
Qed.

(** X15. Whatever the outcome, the bundle keeps its media type, its
    signature content and the content of its verification material; a nil
    bundle stays nil. *)
Theorem bundle_frame_is_kept ctx pubKeyPEM h :
  bundle_frame (bundle (heap_of (run ctx pubKeyPEM h))) = bundle_frame (bundle h).
Proof.
  destruct (run ctx pubKeyPEM h) as [[] h'|[e|] h'|h'] eqn:Hrun.
  - rewrite <- Hrun. apply (f_equal bundle_frame), run_failure_keeps_bundle.
    intros h2. by rewrite Hrun.
  - rewrite <- Hrun. apply (f_equal bundle_frame), run_failure_keeps_bundle.
    intros h2. by rewrite Hrun.
  - apply run_success in Hrun
      as (pe & o & c & resp & tlogEntry & b & vm & _ & _ & _ & _ & _ & Hb & Hvm & ->).
    cbn. rewrite Hb. cbn. by rewrite Hvm.
  - rewrite <- Hrun. apply (f_equal bundle_frame), run_failure_keeps_bundle.
    intros h2. by rewrite Hrun.
Qed.

(** X16. The bundle is written to exactly when the method returns nil: an
    error return and a panic leave it as it was, a nil return never does. *)
Theorem bundle_changes_exactly_on_success ctx pubKeyPEM h :
  bundle (heap_of (run ctx pubKeyPEM h)) <> bundle h <->
  exists h', run ctx pubKeyPEM h = Return None h'.
Proof.
  split.
  - intros Hchanged.
    destruct (run ctx pubKeyPEM h) as [[] h'|[e|] h'|h'] eqn:Hrun;
      [| |by exists h'|];
      exfalso; apply Hchanged; rewrite <- Hrun;
      apply run_failure_keeps_bundle; intros h2; by rewrite Hrun.
  - intros [h' Hrun]. rewrite Hrun. cbn.
    apply run_success in Hrun
      as (pe & o & c & resp & tlogEntry & b & vm & _ & _ & _ & _ & _ & Hb & Hvm & ->).
    cbn. rewrite Hb. intros [= Heq]. by apply appended_differs in Heq.
Qed.

(** Once a client is in place and the zero timeout replaced, the options
    are not written to again. *)
Lemma written_twice o c :
  the_client o = inl c -> written (written o) = written o.
Proof.
  intros Hc. pose proof (written_client o c Hc) as Hw.
  unfold options_after at 1. rewrite Hw.
  destruct (options_after_fields ConstructUserAgent client_GetRekorClient o)
    as (_ & _ & Ht & _).
  rewrite bool_decide_eq_false_2; [done|].
  rewrite Ht. unfold effective_Timeout. case_bool_decide; [done|lia].
Qed.

(** X17. Two calls in a row that both return nil (a bundle submitted
    twice): the first call sends the request built for its context from the
    options as they were and appends the log's answer to it; the second
    call, run on what the first left, goes through the same client (the one
    the first call used and stored), sends the request built for its own
    context and appends the answer to that one.  So the bundle ends with the
    former entries, then the first call's entry, then the second call's,
    the request log with the first call's request, then the second's, and
    the second call writes nothing more to the options. *)
Theorem two_submissions_compose ctx1 pubKeyPEM1 ctx2 pubKeyPEM2 h h1 h2 :
  run ctx1 pubKeyPEM1 h = Return None h1 ->
  run ctx2 pubKeyPEM2 h1 = Return None h2 ->
  exists o c pe1 pe2 resp1 resp2 tlogEntry1 tlogEntry2,
    options h = Some o /\
    the_client o = inl c /\
    propose ctx1 pubKeyPEM1 h = Continue pe1 h /\
    CreateLogEntry c (request ctx1 pe1 o) = inl (Some resp1) /\
    tle_GenerateTransparencyLogEntry
      (default LogEntryAnon_zero (resp_Payload resp1 !! ETag resp1)) = inl tlogEntry1 /\
    tlog_entries (bundle h1) = tlog_entries (bundle h) ++ [tlogEntry1] /\
    requests h1 = requests h ++ [request ctx1 pe1 o] /\
    options h1 = Some (written o) /\
    Client (written o) = Some c /\
    propose ctx2 pubKeyPEM2 h1 = Continue pe2 h1 /\
    CreateLogEntry c (request ctx2 pe2 (written o)) = inl (Some resp2) /\
    tle_GenerateTransparencyLogEntry
      (default LogEntryAnon_zero (resp_Payload resp2 !! ETag resp2)) = inl tlogEntry2 /\
    tlog_entries (bundle h2) = tlog_entries (bundle h1) ++ [tlogEntry2] /\
    requests h2 = requests h1 ++ [request ctx2 pe2 (written o)] /\
    options h2 = options h1 /\
    tlog_entries (bundle h2) = tlog_entries (bundle h) ++ [tlogEntry1; tlogEntry2] /\
    requests h2 =
      requests h ++ [request ctx1 pe1 o; request ctx2 pe2 (written o)] /\
    params_Context <$> [request ctx1 pe1 o; request ctx2 pe2 (written o)] =
      [Some ctx1; Some ctx2].
Proof.
  intros Hrun1 Hrun2.
  apply run_success in Hrun1
    as (pe1 & o & c & resp1 & e1 & b1 & vm1 & Hp1 & Ho & Hc & Hs1 & Ht1 & Hb1 & Hvm1 & ->).
  apply run_success in Hrun2
    as (pe2 & o2 & c2 & resp2 & e2 & b2 & vm2 & Hp2 & Ho2 & Hc2 & Hs2 & Ht2 & Hb2 & Hvm2 & ->).
  cbn in Ho2. injection Ho2 as <-.
  pose proof (written_client o c Hc) as Hw.
  unfold client_for in Hc2. rewrite Hw in Hc2. injection Hc2 as <-.
  cbn in Hb2. injection Hb2 as <-. cbn in Hvm2. injection Hvm2 as <-.
  assert (He1 : tlog_entries (Some (appended b1 vm1 e1)) =
                tlog_entries (bundle h) ++ [e1]).
  { unfold tlog_entries. rewrite Hb1. cbn. by rewrite Hvm1. }
  exists o, c, pe1, pe2, resp1, resp2, e1, e2. cbn [options bundle requests].
  rewrite (written_twice o c Hc).
  repeat split; try done.
  - unfold tlog_entries. rewrite Hb1. cbn. rewrite Hvm1. by rewrite <- app_assoc.
  - by rewrite <- app_assoc.
Qed.

End Behaviour.

(** X18. With an injected client no client is built: the outcome is the
    same whatever the client factory and the user agent are. *)
Theorem injected_client_is_the_one_used
    json_Marshal dsse_CreateProposedEntry hashedrekord_CreateProposedEntry
    hex_EncodeToString rekorUtil_PrefixSHA pki_X509 NewCreateLogEntryParams
    userAgent1 userAgent2 getRekorClient1 getRekorClient2
    tle_GenerateTransparencyLogEntry ctx pubKeyPEM h o c :
  options h = Some o ->
  Client o = Some c ->
  GetTransparencyLogEntry json_Marshal dsse_CreateProposedEntry
    hashedrekord_CreateProposedEntry hex_EncodeToString rekorUtil_PrefixSHA
    pki_X509 NewCreateLogEntryParams userAgent1 getRekorClient1
    tle_GenerateTransparencyLogEntry ctx pubKeyPEM h =
  GetTransparencyLogEntry json_Marshal dsse_CreateProposedEntry
    hashedrekord_CreateProposedEntry hex_EncodeToString rekorUtil_PrefixSHA
    pki_X509 NewCreateLogEntryParams userAgent2 getRekorClient2
    tle_GenerateTransparencyLogEntry ctx pubKeyPEM h.
Proof.
  intros Ho Hc. rewrite !GetTransparencyLogEntry_run.
  destruct (proposeEntry _ _ _ _ _ _ ctx pubKeyPEM h); [|done..].
  rewrite Ho. unfold options_after, client_for. by rewrite Hc.
Qed.

(** *** Concrete runs *)

(** A message signature with its digest and a certificate; no log entries
    yet (a nil slice). *)
Definition certified_signature_bundle : Bundle :=
  {| MediaType := "application/vnd.dev.sigstore.bundle+json;version=0.2";
     Bundle_VerificationMaterial :=
       Some {| vm_Content :=
                 Some (VerificationMaterial_Certificate (Some {| RawBytes := [48; 130] |}));
               TlogEntries := None |};
     Content := Some (Bundle_MessageSignature (Some a_signature)) |}.

(** The same with a nil message digest. *)
Definition undigested_signature : MessageSignature :=
  {| MessageDigest := None; Signature := [9; 9; 9] |}.
Definition undigested_signature_bundle : Bundle :=
  {| MediaType := "application/vnd.dev.sigstore.bundle+json;version=0.2";
     Bundle_VerificationMaterial :=
       Some {| vm_Content :=
                 Some (VerificationMaterial_Certificate (Some {| RawBytes := [48; 130] |}));
               TlogEntries := None |};
     Content := Some (Bundle_MessageSignature (Some undigested_signature)) |}.

(** A content that wraps a nil envelope. *)
Definition hollow_bundle : Bundle :=
  {| MediaType := "application/vnd.dev.sigstore.bundle+json;version=0.2";
     Bundle_VerificationMaterial := None;
     Content := Some (Bundle_DsseEnvelope None) |}.

(** Collaborators that fail. *)
Definition failing_Marshal (_ : Envelope) : result bytes :=
  inr (errors_New "json: unsupported value").
Definition failing_entry (_ : Context) (_ : string) (_ : ArtifactProperties)
  : result ProposedEntry :=
  inr (errors_New "error creating proposed entry").
Definition failing_GetRekorClient (_ _ : string) (_ : N) : result RekorClient :=
  inr (errors_New "invalid url").
Definition failing_tle (_ : LogEntryAnon) : result TransparencyLogEntry :=
  inr (errors_New "entry without verification").

(** A client that answers with neither a response nor an error, and one
    whose payload is not filed under the answer's ETag. *)
Definition silent_client : RekorClient :=
  {| CreateLogEntry := fun _ => inl None |}.
Definition untagged_response : CreateLogEntryCreated :=
  {| ETag := "etag"; Location := "/api/v1/log/entries/etag";
     resp_Payload := {[ "uuid" := stub_entry ]} |}.
Definition untagged_client : RekorClient :=
  {| CreateLogEntry := fun _ => inl (Some untagged_response) |}.

Definition stub_response : CreateLogEntryCreated :=
  {| ETag := "etag"; Location := "/api/v1/log/entries/etag";
     resp_Payload := {[ "etag" := stub_entry ]} |}.
Definition stub_tlogEntry : TransparencyLogEntry :=
  {| LogIndex := 42; LogId := "c0d23d6a"; IntegratedTime := 1700000000;
     InclusionProof := []; CanonicalizedBody := [1; 2; 3] |}.
Definition zero_tlogEntry : TransparencyLogEntry :=
  {| LogIndex := 0; LogId := ""; IntegratedTime := 0;
     InclusionProof := []; CanonicalizedBody := [] |}.
Definition dsse_entry : ProposedEntry :=
  {| pe_Kind := "dsse"; pe_Spec := [123; 125] |}.
Definition hashedrekord_entry : ProposedEntry :=
  {| pe_Kind := "hashedrekord"; pe_Spec := [9; 9; 9] |}.
Definition stub_request (t : Duration) (pe : ProposedEntry) : CreateLogEntryParams :=
  {| timeout := t; params_ProposedEntry := Some pe; params_Context := Some "ctx" |}.

Lemma no_signature_is_refused_witness :
  stub_run "ctx" [1] {| options := None; bundle := None; requests := [] |} =
    Return (Some (errors_New "unable to find signature in bundle"))
      {| options := None; bundle := None; requests := [] |} /\
  stub_run "ctx" [1] (heap_with (opts 0 None) hollow_bundle) =
    Return (Some (errors_New "unable to find signature in bundle"))
      (heap_with (opts 0 None) hollow_bundle).
Proof.
  split.
  - apply (no_signature_is_refused stub_Marshal stub_dsse stub_hashedrekord
             stub_hex stub_PrefixSHA "x509" stub_NewParams "sigstore-go"
             stub_GetRekorClient stub_tle "ctx" [1]
             {| options := None; bundle := None; requests := [] |});
      reflexivity.
  - apply (no_signature_is_refused stub_Marshal stub_dsse stub_hashedrekord
             stub_hex stub_PrefixSHA "x509" stub_NewParams "sigstore-go"
             stub_GetRekorClient stub_tle "ctx" [1]
             (heap_with (opts 0 None) hollow_bundle));
      reflexivity.
Defined.

Lemma dsse_build_errors_are_returned_witness :
  GetTransparencyLogEntry failing_Marshal stub_dsse stub_hashedrekord stub_hex
    stub_PrefixSHA "x509" stub_NewParams "sigstore-go" stub_GetRekorClient
    stub_tle "ctx" [1] (heap_with (opts 0 None) dsse_bundle) =
    Return (Some (errors_New "json: unsupported value"))
      (heap_with (opts 0 None) dsse_bundle) /\
  GetTransparencyLogEntry stub_Marshal failing_entry stub_hashedrekord stub_hex
    stub_PrefixSHA "x509" stub_NewParams "sigstore-go" stub_GetRekorClient
    stub_tle "ctx" [1] (heap_with (opts 0 None) dsse_bundle) =
    Return (Some (errors_New "error creating proposed entry"))
      (heap_with (opts 0 None) dsse_bundle).
Proof.
  split.
  - apply (dsse_build_errors_are_returned failing_Marshal stub_dsse
             stub_hashedrekord stub_hex stub_PrefixSHA "x509" stub_NewParams
             "sigstore-go" stub_GetRekorClient stub_tle "ctx" [1]
             (heap_with (opts 0 None) dsse_bundle) an_envelope);
      [reflexivity|by left].
  - apply (dsse_build_errors_are_returned stub_Marshal failing_entry
             stub_hashedrekord stub_hex stub_PrefixSHA "x509" stub_NewParams
             "sigstore-go" stub_GetRekorClient stub_tle "ctx" [1]
             (heap_with (opts 0 None) dsse_bundle) an_envelope);
      [reflexivity|right; by exists [123; 125]].
Defined.

Lemma hashedrekord_build_error_is_returned_witness :
  GetTransparencyLogEntry stub_Marshal stub_dsse failing_entry stub_hex
    stub_PrefixSHA "x509" stub_NewParams "sigstore-go" stub_GetRekorClient
    stub_tle "ctx" [1] (heap_with (opts 0 None) certified_signature_bundle) =
    Return (Some (errors_New "error creating proposed entry"))
      (heap_with (opts 0 None) certified_signature_bundle).
Proof.
  apply (hashedrekord_build_error_is_returned stub_Marshal stub_dsse
           failing_entry stub_hex stub_PrefixSHA "x509" stub_NewParams
           "sigstore-go" stub_GetRekorClient stub_tle "ctx" [1]
           (heap_with (opts 0 None) certified_signature_bundle) a_signature
           {| RawBytes := [48; 130] |} {| Algorithm := 1; Digest := [171; 205] |});
    reflexivity.
Defined.

Lemma nil_message_digest_panics_witness :
  stub_run "ctx" [1] (heap_with (opts 0 None) undigested_signature_bundle) =
    Panic (heap_with (opts 0 None) undigested_signature_bundle).
Proof.
  apply (nil_message_digest_panics stub_Marshal stub_dsse stub_hashedrekord
           stub_hex stub_PrefixSHA "x509" stub_NewParams "sigstore-go"
           stub_GetRekorClient stub_tle "ctx" [1]
           (heap_with (opts 0 None) undigested_signature_bundle)
           undigested_signature {| RawBytes := [48; 130] |});
    reflexivity.
Defined.

Lemma nil_options_panic_after_proposal_witness :
  stub_run "ctx" [1] {| options := None; bundle := Some dsse_bundle; requests := [] |} =
    Panic {| options := None; bundle := Some dsse_bundle; requests := [] |} /\
  stub_run "ctx" [1] {| options := None; bundle := Some keyed_signature_bundle;
                        requests := [] |} =
    Return (Some (errors_New "hashedrekord requires X.509 certificate"))
      {| options := None; bundle := Some keyed_signature_bundle; requests := [] |}.
Proof.
  split.
  - apply (proj1 (nil_options_panic_after_proposal stub_Marshal stub_dsse
             stub_hashedrekord stub_hex stub_PrefixSHA "x509" stub_NewParams
             "sigstore-go" stub_GetRekorClient stub_tle "ctx" [1]
             {| options := None; bundle := Some dsse_bundle; requests := [] |}
             eq_refl) dsse_entry
             {| options := None; bundle := Some dsse_bundle; requests := [] |}).
    reflexivity.
  - apply (proj2 (nil_options_panic_after_proposal stub_Marshal stub_dsse
             stub_hashedrekord stub_hex stub_PrefixSHA "x509" stub_NewParams
             "sigstore-go" stub_GetRekorClient stub_tle "ctx" [1]
             {| options := None; bundle := Some keyed_signature_bundle;
                requests := [] |}
             eq_refl) (Some (errors_New "hashedrekord requires X.509 certificate"))
             {| options := None; bundle := Some keyed_signature_bundle;
                requests := [] |}).
    reflexivity.
Defined.

Lemma client_construction_failure_witness :
  GetTransparencyLogEntry stub_Marshal stub_dsse stub_hashedrekord stub_hex
    stub_PrefixSHA "x509" stub_NewParams "sigstore-go" failing_GetRekorClient
    stub_tle "ctx" [1] (heap_with (opts 0 None) dsse_bundle) =
    Return (Some (errors_New "invalid url"))
      {| options := Some (opts (30 * Second) None);
         bundle := Some dsse_bundle;
         requests := [] |} /\
  Client (with_default_Timeout (opts 0 None)) = None.
Proof.
  apply (client_construction_failure stub_Marshal stub_dsse stub_hashedrekord
           stub_hex stub_PrefixSHA "x509" stub_NewParams "sigstore-go"
           failing_GetRekorClient stub_tle "ctx" [1]
           (heap_with (opts 0 None) dsse_bundle) dsse_entry (opts 0 None)
           (errors_New "invalid url"));
    reflexivity.
Defined.

Lemma transport_failure_is_returned_witness :
  stub_run "ctx" [1] (heap_with (opts 0 (Some failing_client)) dsse_bundle) =
    Return (Some (errors_New "connection refused"))
      {| options := Some (opts (30 * Second) (Some failing_client));
         bundle := Some dsse_bundle;
         requests := [stub_request (30 * Second) dsse_entry] |}.
Proof.
  apply (transport_failure_is_returned stub_Marshal stub_dsse stub_hashedrekord
           stub_hex stub_PrefixSHA "x509" stub_NewParams "sigstore-go"
           stub_GetRekorClient stub_tle "ctx" [1]
           (heap_with (opts 0 (Some failing_client)) dsse_bundle) dsse_entry
           (opts 0 (Some failing_client)) failing_client
           (errors_New "connection refused"));
    reflexivity.
Defined.

Lemma nil_response_panics_witness :
  stub_run "ctx" [1] (heap_with (opts (-1) (Some silent_client)) dsse_bundle) =
    Panic
      {| options := Some (opts (-1) (Some silent_client));
         bundle := Some dsse_bundle;
         requests := [stub_request (timeout stub_NewParams) dsse_entry] |}.
Proof.
  apply (nil_response_panics stub_Marshal stub_dsse stub_hashedrekord
           stub_hex stub_PrefixSHA "x509" stub_NewParams "sigstore-go"
           stub_GetRekorClient stub_tle "ctx" [1]
           (heap_with (opts (-1) (Some silent_client)) dsse_bundle) dsse_entry
           (opts (-1) (Some silent_client)) silent_client);
    reflexivity.
Defined.

Lemma transformation_failure_is_returned_witness :
  GetTransparencyLogEntry stub_Marshal stub_dsse stub_hashedrekord stub_hex
    stub_PrefixSHA "x509" stub_NewParams "sigstore-go" stub_GetRekorClient
    failing_tle "ctx" [1] (heap_with (opts 0 None) dsse_bundle) =
    Return (Some (errors_New "entry without verification"))
      {| options := Some (opts (30 * Second) (Some stub_client));
         bundle := Some dsse_bundle;
         requests := [stub_request (30 * Second) dsse_entry] |}.
Proof.
  apply (transformation_failure_is_returned stub_Marshal stub_dsse
           stub_hashedrekord stub_hex stub_PrefixSHA "x509" stub_NewParams
           "sigstore-go" stub_GetRekorClient failing_tle "ctx" [1]
           (heap_with (opts 0 None) dsse_bundle) dsse_entry (opts 0 None)
           stub_client stub_response (errors_New "entry without verification"));
    reflexivity.
Defined.

Lemma dsse_submission_succeeds_witness :
  stub_run "ctx" [1] (heap_with (opts 0 None) dsse_bundle) =
    Return None
      {| options := Some (opts (30 * Second) (Some stub_client));
         bundle :=
           Some {| MediaType := MediaType dsse_bundle;
                   Bundle_VerificationMaterial :=
                     Some {| vm_Content := Some (VerificationMaterial_PublicKey (Some "hint"));
                             TlogEntries := Some [an_old_entry; stub_tlogEntry] |};
                   Content := Content dsse_bundle |};
         requests := [stub_request (30 * Second) dsse_entry] |}.
Proof.
  apply (dsse_submission_succeeds stub_Marshal stub_dsse stub_hashedrekord
           stub_hex stub_PrefixSHA "x509" stub_NewParams "sigstore-go"
           stub_GetRekorClient stub_tle "ctx" [1]
           (heap_with (opts 0 None) dsse_bundle) dsse_bundle an_envelope
           {| vm_Content := Some (VerificationMaterial_PublicKey (Some "hint"));
              TlogEntries := Some [an_old_entry] |}
           (opts 0 None) stub_client [123; 125] dsse_entry stub_response
           stub_tlogEntry);
    reflexivity.
Defined.

Lemma hashedrekord_submission_succeeds_witness :
  stub_run "ctx" [1] (heap_with (opts (5 * Second) None) certified_signature_bundle) =
    Return None
      {| options := Some (opts (5 * Second) (Some stub_client));
         bundle :=
           Some {| MediaType := MediaType certified_signature_bundle;
                   Bundle_VerificationMaterial :=
                     Some {| vm_Content :=
                               Some (VerificationMaterial_Certificate
                                       (Some {| RawBytes := [48; 130] |}));
                             TlogEntries := Some [stub_tlogEntry] |};
                   Content := Content certified_signature_bundle |};
         requests := [stub_request (5 * Second) hashedrekord_entry] |}.
Proof.
  apply (hashedrekord_submission_succeeds stub_Marshal stub_dsse stub_hashedrekord
           stub_hex stub_PrefixSHA "x509" stub_NewParams "sigstore-go"
           stub_GetRekorClient stub_tle "ctx" [1]
           (heap_with (opts (5 * Second) None) certified_signature_bundle)
           certified_signature_bundle a_signature
           {| Algorithm := 1; Digest := [171; 205] |} {| RawBytes := [48; 130] |}
           {| vm_Content :=
                Some (VerificationMaterial_Certificate (Some {| RawBytes := [48; 130] |}));
              TlogEntries := None |}
           (opts (5 * Second) None) stub_client hashedrekord_entry stub_response
           stub_tlogEntry);
    reflexivity.
Defined.

Example hashedrekord_properties_of_signature :
  hashedrekord_properties stub_hex stub_PrefixSHA "x509" [1] a_signature
    {| Algorithm := 1; Digest := [171; 205] |} =
  {| ArtifactHash := "sha256:00"; ArtifactBytes := []; SignatureBytes := [9; 9; 9];
     PublicKeyBytes := [[1]]; PKIFormat := "x509" |}.
Proof. reflexivity. Qed.

Lemma missing_etag_appends_zero_entry_witness :
  resp_Payload untagged_response !! ETag untagged_response = None /\
  stub_run "ctx" [1] (heap_with (opts 0 (Some untagged_client)) dsse_bundle) =
    Return None
      {| options := Some (opts (30 * Second) (Some untagged_client));
         bundle :=
           Some {| MediaType := MediaType dsse_bundle;
                   Bundle_VerificationMaterial :=
                     Some {| vm_Content := Some (VerificationMaterial_PublicKey (Some "hint"));
                             TlogEntries := Some [an_old_entry; zero_tlogEntry] |};
                   Content := Content dsse_bundle |};
         requests := [stub_request (30 * Second) dsse_entry] |}.
Proof.
  split; [reflexivity|].
  apply (missing_etag_appends_zero_entry stub_Marshal stub_dsse stub_hashedrekord
           stub_hex stub_PrefixSHA "x509" stub_NewParams "sigstore-go"
           stub_GetRekorClient stub_tle "ctx" [1]
           (heap_with (opts 0 (Some untagged_client)) dsse_bundle) dsse_entry
           (opts 0 (Some untagged_client)) untagged_client untagged_response
           zero_tlogEntry dsse_bundle
           {| vm_Content := Some (VerificationMaterial_PublicKey (Some "hint"));
              TlogEntries := Some [an_old_entry] |});
    reflexivity.
Defined.

Lemma nil_return_means_every_step_succeeded_witness :
  let h := heap_with (opts 0 None) dsse_bundle in
  exists pe o c resp tlogEntry b vm,
    proposeEntry stub_Marshal stub_dsse stub_hashedrekord stub_hex stub_PrefixSHA
      "x509" "ctx" [1] h = Continue pe h /\
    options h = Some o /\
    client_for "sigstore-go" stub_GetRekorClient o = inl c /\
    CreateLogEntry c (request_for stub_NewParams "ctx" pe o) = inl (Some resp) /\
    stub_tle (default LogEntryAnon_zero (resp_Payload resp !! ETag resp)) = inl tlogEntry /\
    bundle h = Some b /\
    Bundle_VerificationMaterial b = Some vm /\
    heap_of (stub_run "ctx" [1] h) =
      {| options := Some (options_after "sigstore-go" stub_GetRekorClient o);
         bundle := Some (appended b vm tlogEntry);
         requests := requests h ++ [request_for stub_NewParams "ctx" pe o] |}.
Proof.
  intros h.
  apply (nil_return_means_every_step_succeeded stub_Marshal stub_dsse
           stub_hashedrekord stub_hex stub_PrefixSHA "x509" stub_NewParams
           "sigstore-go" stub_GetRekorClient stub_tle "ctx" [1] h
           (heap_of (stub_run "ctx" [1] h))).
  reflexivity.
Defined.

(** A log that files each entry under the context of the request it came
    with, so that the answers to two requests can be told apart. *)
Definition echo_entry (params : CreateLogEntryParams) : LogEntryAnon :=
  {| lea_Body := default [] (pe_Spec <$> params_ProposedEntry params);
     lea_IntegratedTime := 1700000000;
     lea_LogID := default "" (params_Context params);
     lea_LogIndex := 42 |}.
Definition echo_client : RekorClient :=
  {| CreateLogEntry := fun params =>
       inl (Some {| ETag := "etag"; Location := "/api/v1/log/entries/etag";
                    resp_Payload := {[ "etag" := echo_entry params ]} |}) |}.
Definition echo_GetRekorClient (_ _ : string) (_ : N) : result RekorClient :=
  inl echo_client.

(** The method against the echoing log, the client built on first use. *)
Definition echo_run : Context -> bytes -> M unit :=
  GetTransparencyLogEntry stub_Marshal stub_dsse stub_hashedrekord stub_hex
    stub_PrefixSHA "x509" stub_NewParams "sigstore-go" echo_GetRekorClient stub_tle.

(** X17 at a certified signature submitted under two contexts, with no
    client injected and a zero timeout: the first call builds the client
    and sets thirty seconds, the second finds both in place. *)
Lemma two_submissions_compose_witness :
  let h := heap_with (opts 0 None) certified_signature_bundle in
  let h1 := heap_of (echo_run "ctx" [1] h) in
  let h2 := heap_of (echo_run "ctx2" [2] h1) in
  let written := options_after "sigstore-go" echo_GetRekorClient in
  let propose :=
    proposeEntry stub_Marshal stub_dsse stub_hashedrekord stub_hex
      stub_PrefixSHA "x509" in
  (echo_run "ctx" [1] h = Return None h1 /\
   echo_run "ctx2" [2] h1 = Return None h2) /\
  exists o c pe1 pe2 resp1 resp2 tlogEntry1 tlogEntry2,
    options h = Some o /\
    client_for "sigstore-go" echo_GetRekorClient o = inl c /\
    propose "ctx" [1] h = Continue pe1 h /\
    CreateLogEntry c (request_for stub_NewParams "ctx" pe1 o) = inl (Some resp1) /\
    stub_tle (default LogEntryAnon_zero (resp_Payload resp1 !! ETag resp1)) =
      inl tlogEntry1 /\
    tlog_entries (bundle h1) = tlog_entries (bundle h) ++ [tlogEntry1] /\
    requests h1 = requests h ++ [request_for stub_NewParams "ctx" pe1 o] /\
    options h1 = Some (written o) /\
    Client (written o) = Some c /\
    propose "ctx2" [2] h1 = Continue pe2 h1 /\
    CreateLogEntry c (request_for stub_NewParams "ctx2" pe2 (written o)) =
      inl (Some resp2) /\
    stub_tle (default LogEntryAnon_zero (resp_Payload resp2 !! ETag resp2)) =
      inl tlogEntry2 /\
    tlog_entries (bundle h2) = tlog_entries (bundle h1) ++ [tlogEntry2] /\
    requests h2 = requests h1 ++ [request_for stub_NewParams "ctx2" pe2 (written o)] /\
    options h2 = options h1 /\
    tlog_entries (bundle h2) = tlog_entries (bundle h) ++ [tlogEntry1; tlogEntry2] /\
    requests h2 =
      requests h ++ [request_for stub_NewParams "ctx" pe1 o;
                     request_for stub_NewParams "ctx2" pe2 (written o)] /\
    params_Context <$> [request_for stub_NewParams "ctx" pe1 o;
                        request_for stub_NewParams "ctx2" pe2 (written o)] =
      [Some "ctx"; Some "ctx2"].
Proof.
  intros h h1 h2 written propose. split; [by split|].
  apply (two_submissions_compose stub_Marshal stub_dsse stub_hashedrekord
           stub_hex stub_PrefixSHA "x509" stub_NewParams "sigstore-go"
           echo_GetRekorClient stub_tle "ctx" [1] "ctx2" [2] h h1 h2);
    reflexivity.
Defined.

(** The same run, computed: the entry answering the first request comes
    first, the one answering the second comes second; swapping them would
    not do. *)
Example two_submissions :
  let h := heap_with (opts 0 None) certified_signature_bundle in
  let h1 := heap_of (echo_run "ctx" [1] h) in
  let h2 := heap_of (echo_run "ctx2" [2] h1) in
  LogId <$> tlog_entries (bundle h1) = ["ctx"] /\
  LogId <$> tlog_entries (bundle h2) = ["ctx"; "ctx2"] /\
  params_Context <$> requests h1 = [Some "ctx"] /\
  params_Context <$> requests h2 = [Some "ctx"; Some "ctx2"] /\
  timeout <$> requests h2 = [30 * Second; 30 * Second] /\
  options h1 = Some (opts (30 * Second) (Some echo_client)) /\
  options h2 = options h1.
Proof. by vm_compute. Qed.

Lemma injected_client_is_the_one_used_witness :
  GetTransparencyLogEntry stub_Marshal stub_dsse stub_hashedrekord stub_hex
    stub_PrefixSHA "x509" stub_NewParams "sigstore-go" stub_GetRekorClient
    stub_tle "ctx" [1] (heap_with (opts 0 (Some stub_client)) dsse_bundle) =
  GetTransparencyLogEntry stub_Marshal stub_dsse stub_hashedrekord stub_hex
    stub_PrefixSHA "x509" stub_NewParams "other-agent" failing_GetRekorClient
    stub_tle "ctx" [1] (heap_with (opts 0 (Some stub_client)) dsse_bundle).
Proof.
  apply (injected_client_is_the_one_used stub_Marshal stub_dsse stub_hashedrekord
           stub_hex stub_PrefixSHA "x509" stub_NewParams "sigstore-go"
           "other-agent" stub_GetRekorClient failing_GetRekorClient stub_tle
           "ctx" [1] (heap_with (opts 0 (Some stub_client)) dsse_bundle)
           (opts 0 (Some stub_client)) stub_client);
    reflexivity.
Defined.

End Sign.

(* ===================================================================== *)
(** * pkg/root: trust material                                            *)
(* ===================================================================== *)
(** Of this package the test file is at hand.  What the tests define
    themselves ([singleKeyVerifier], [nonExpiringVerifier], the Ed25519
    substitution) is embedded from them; the operations they call are
    modelled from the specification, each marked as such. *)
Module Root.

(** An instant ([time.Time]), counted in nanoseconds. *)
Definition Time : Type := Z.

(** ** Validity periods *)

(** Modelled from the spec: the validity period of a trust entity, whose
    declaration is not among the sources (section 3: a start and an end
    that may be absent, an absent end meaning "never expires"). *)
Record ValidityPeriod : Type :=
  { ValidityPeriodStart : Time;
    ValidityPeriodEnd : option Time }.

(** Modelled from the spec: the invariant of a validity period (section 3:
    start <= end when the end is present). *)
Definition well_formed_period (p : ValidityPeriod) : Prop :=
  match ValidityPeriodEnd p with
  | Some e => ValidityPeriodStart p <= e
  | None => True
  end.

(** Modelled from the spec: the verifier wrapped with a validity interval
    (section 3, TimeConstrainedVerifier), whose implementation is not among
    the sources. *)
Record TimeConstrainedVerifier (V : Type) : Type :=
  { verifier : V;
    period : ValidityPeriod }.
Arguments verifier {V} _.
Arguments period {V} _.

(** Modelled from the spec: [ValidAtTime], whose implementation is not among
    the sources: refused before the start, refused after a present end. *)
Definition ValidAtTime {V} (k : TimeConstrainedVerifier V) (t : Time) : bool :=
  if t <? ValidityPeriodStart (period k) then false
  else
    match ValidityPeriodEnd (period k) with
    | Some e => if e <? t then false else true
    | None => true
    end.

(** The test file's [nonExpiringVerifier]: valid at any time. *)
Record nonExpiringVerifier (V : Type) : Type := { Verifier : V }.
Arguments Verifier {V} _.
Definition nonExpiringVerifier_ValidAtTime {V} (_ : nonExpiringVerifier V)
    (_ : Time) : bool := true.

(** ** The wire document *)

(** The key-details tags of protobuf-specs' [PublicKeyDetails] that the
    specification lists (section 4.1); the tests name the Ed25519 and the
    RSA-2048 one. *)
Inductive PublicKeyDetails : Type :=
| PUBLIC_KEY_DETAILS_UNSPECIFIED
| PKIX_RSA_PKCS1V15_2048_SHA256
| PKIX_RSA_PKCS1V15_3072_SHA256
| PKIX_RSA_PKCS1V15_4096_SHA256
| PKIX_ECDSA_P256_SHA_256
| PKIX_ECDSA_P384_SHA_384
| PKIX_ECDSA_P521_SHA_512
| PKIX_ED25519.

#[global] Instance PublicKeyDetails_eq_dec : EqDecision PublicKeyDetails.
Proof. solve_decision. Defined.

(** [crypto.Hash], as far as the tags above need it. *)
Inductive crypto_Hash : Type := SHA256 | SHA384 | SHA512.

(** A timestamp as the JSON document writes it: whole seconds and, when one
    is written, the sub-second fraction ("...:29Z" has none, "...:29.000Z"
    has [Some 0]).  The fraction is held by its value in nanoseconds; how
    many digits spell it is not part of the model. *)
Record JSONTimestamp : Type :=
  { ts_seconds : Z;
    ts_fraction : option Z }.

(** The messages of the trust-root document, over the way [T] a timestamp
    is held: [JSONTimestamp] in the JSON text, [Time] once decoded.  Fields
    the trust-root model does not read are kept as raw name/value pairs. *)
Record TimeRange (T : Type) : Type :=
  { Start : T;
    End : option T }.
Arguments Start {T} _.
Arguments End {T} _.

Record PublicKey (T : Type) : Type :=
  { RawBytes : bytes;
    KeyDetails : PublicKeyDetails;
    ValidFor : TimeRange T }.
Arguments RawBytes {T} _.
Arguments KeyDetails {T} _.
Arguments ValidFor {T} _.

Record TransparencyLogInstance (T : Type) : Type :=
  { BaseUrl : string;
    LogId : bytes;
    tli_PublicKey : PublicKey T;
    tli_unknown : list (string * string) }.
Arguments BaseUrl {T} _.
Arguments LogId {T} _.
Arguments tli_PublicKey {T} _.
Arguments tli_unknown {T} _.

Record CertificateAuthority (T : Type) : Type :=
  { CertChain : list bytes;
    ca_ValidFor : TimeRange T;
    ca_unknown : list (string * string) }.
Arguments CertChain {T} _.
Arguments ca_ValidFor {T} _.
Arguments ca_unknown {T} _.

Record TrustedRootProto (T : Type) : Type :=
  { MediaType : string;
    Tlogs : list (TransparencyLogInstance T);
    CertificateAuthorities : list (CertificateAuthority T);
    Ctlogs : list (TransparencyLogInstance T);
    TimestampAuthorities : list (CertificateAuthority T);
    unknown : list (string * string) }.
Arguments MediaType {T} _.
Arguments Tlogs {T} _.
Arguments CertificateAuthorities {T} _.
Arguments Ctlogs {T} _.
Arguments TimestampAuthorities {T} _.
Arguments unknown {T} _.

(** Everything in a document that the trust-root model does not interpret:
    the unknown fields at every level, and the log identifiers as written. *)
Definition uninterpreted {T} (d : TrustedRootProto T)
  : list (string * string) * list (bytes * list (string * string))
    * list (list (string * string)) * list (bytes * list (string * string))
    * list (list (string * string)) :=
  (unknown d,
   (fun l => (LogId l, tli_unknown l)) <$> Tlogs d,
   ca_unknown <$> CertificateAuthorities d,
   (fun l => (LogId l, tli_unknown l)) <$> Ctlogs d,
   ca_unknown <$> TimestampAuthorities d).

(** Rewriting every timestamp of a document. *)
Definition TimeRange_map {T U} (g : T -> U) (r : TimeRange T) : TimeRange U :=
  {| Start := g (Start r); End := g <$> End r |}.
Definition PublicKey_map {T U} (g : T -> U) (k : PublicKey T) : PublicKey U :=
  {| RawBytes := RawBytes k; KeyDetails := KeyDetails k;
     ValidFor := TimeRange_map g (ValidFor k) |}.
Definition TransparencyLogInstance_map {T U} (g : T -> U)
    (l : TransparencyLogInstance T) : TransparencyLogInstance U :=
  {| BaseUrl := BaseUrl l; LogId := LogId l;
     tli_PublicKey := PublicKey_map g (tli_PublicKey l);
     tli_unknown := tli_unknown l |}.
Definition CertificateAuthority_map {T U} (g : T -> U)
    (c : CertificateAuthority T) : CertificateAuthority U :=
  {| CertChain := CertChain c;
     ca_ValidFor := TimeRange_map g (ca_ValidFor c);
     ca_unknown := ca_unknown c |}.
Definition TrustedRootProto_map {T U} (g : T -> U)
    (d : TrustedRootProto T) : TrustedRootProto U :=
  {| MediaType := MediaType d;
     Tlogs := TransparencyLogInstance_map g <$> Tlogs d;
     CertificateAuthorities := CertificateAuthority_map g <$> CertificateAuthorities d;
     Ctlogs := TransparencyLogInstance_map g <$> Ctlogs d;
     TimestampAuthorities := CertificateAuthority_map g <$> TimestampAuthorities d;
     unknown := unknown d |}.

(** The same with a rewriting that can fail: the first failure is the
    result. *)
Definition bindR {A B} (r : result A) (f : A -> result B) : result B :=
  match r with
  | inl a => f a
  | inr e => inr e
  end.

Fixpoint mapR {A B} (f : A -> result B) (l : list A) : result (list B) :=
  match l with
  | [] => inl []
  | x :: rest =>
      bindR (f x) (fun y => bindR (mapR f rest) (fun ys => inl (y :: ys)))
  end.

Definition optionR {A B} (f : A -> result B) (o : option A) : result (option B) :=
  match o with
  | Some x => bindR (f x) (fun y => inl (Some y))
  | None => inl None
  end.

Definition TimeRange_traverse {T U} (f : T -> result U) (r : TimeRange T)
  : result (TimeRange U) :=
  bindR (f (Start r)) (fun s =>
  bindR (optionR f (End r)) (fun e =>
  inl {| Start := s; End := e |})).
Definition PublicKey_traverse {T U} (f : T -> result U) (k : PublicKey T)
  : result (PublicKey U) :=
  bindR (TimeRange_traverse f (ValidFor k)) (fun v =>
  inl {| RawBytes := RawBytes k; KeyDetails := KeyDetails k; ValidFor := v |}).
Definition TransparencyLogInstance_traverse {T U} (f : T -> result U)
    (l : TransparencyLogInstance T) : result (TransparencyLogInstance U) :=
  bindR (PublicKey_traverse f (tli_PublicKey l)) (fun k =>
  inl {| BaseUrl := BaseUrl l; LogId := LogId l; tli_PublicKey := k;
         tli_unknown := tli_unknown l |}).
Definition CertificateAuthority_traverse {T U} (f : T -> result U)
    (c : CertificateAuthority T) : result (CertificateAuthority U) :=
  bindR (TimeRange_traverse f (ca_ValidFor c)) (fun v =>
  inl {| CertChain := CertChain c; ca_ValidFor := v; ca_unknown := ca_unknown c |}).
Definition TrustedRootProto_traverse {T U} (f : T -> result U)
    (d : TrustedRootProto T) : result (TrustedRootProto U) :=
  bindR (mapR (TransparencyLogInstance_traverse f) (Tlogs d)) (fun tlogs =>
  bindR (mapR (CertificateAuthority_traverse f) (CertificateAuthorities d)) (fun cas =>
  bindR (mapR (TransparencyLogInstance_traverse f) (Ctlogs d)) (fun ctlogs =>
  bindR (mapR (CertificateAuthority_traverse f) (TimestampAuthorities d)) (fun tsas =>
  inl {| MediaType := MediaType d; Tlogs := tlogs; CertificateAuthorities := cas;
         Ctlogs := ctlogs; TimestampAuthorities := tsas; unknown := unknown d |})))).

(** ** The JSON codec on timestamps *)

Definition nanosPerSecond : Z := 1000000000.

(** Modelled from the spec: the error kinds of section 7 that trust-root
    construction reports. *)
Definition DecodeFailure : error := errors_New "DecodeFailure".
Definition MalformedTrustRoot : error := errors_New "MalformedTrustRoot".

(** Modelled from the spec: reading a timestamp of the document, the JSON
    codec being outside the sources (section 6): an omitted fraction is a
    zero fraction; a fraction that is not below one second is malformed. *)
Definition decodeTime (j : JSONTimestamp) : result Time :=
  match ts_fraction j with
  | None => inl (ts_seconds j * nanosPerSecond)
  | Some f =>
      if bool_decide (0 <= f < nanosPerSecond)
      then inl (ts_seconds j * nanosPerSecond + f)
      else inr DecodeFailure
  end.

(** Modelled from the spec: writing a timestamp, the JSON codec being
    outside the sources (section 6, and the comment of [TestFromJSONToJSON]:
    the serialization strips the second fraction when it is 0). *)
Definition encodeTime (t : Time) : JSONTimestamp :=
  {| ts_seconds := t / nanosPerSecond;
     ts_fraction :=
       if bool_decide (t mod nanosPerSecond = 0) then None
       else Some (t mod nanosPerSecond) |}.

(** What [TestFromJSONToJSON] does to the expected document: a written
    zero fraction is dropped, nothing else changes. *)
Definition stripZeroFraction (j : JSONTimestamp) : JSONTimestamp :=
  match ts_fraction j with
  | Some 0 => {| ts_seconds := ts_seconds j; ts_fraction := None |}
  | _ => j
  end.

Definition Unmarshal (d : TrustedRootProto JSONTimestamp)
  : result (TrustedRootProto Time) :=
  TrustedRootProto_traverse decodeTime d.
Definition Marshal (p : TrustedRootProto Time) : TrustedRootProto JSONTimestamp :=
  TrustedRootProto_map encodeTime p.

(** ** Collections of trust material *)

Section Collection.

(** What a lookup hands back: a [TimeConstrainedVerifier] interface value. *)
Context {V : Type}.

(** The one capability of trust material that the collection uses. *)
Record TrustedMaterial : Type :=
  { PublicKeyVerifier : string -> result V }.

(** The test file's [singleKeyVerifier]: any identifier resolves to its
    verifier. *)
Definition singleKeyVerifier (v : V) : TrustedMaterial :=
  {| PublicKeyVerifier := fun _ => inl v |}.

Definition TrustedMaterialCollection : Type := list TrustedMaterial.

(** Modelled from the spec: the generic lookup-miss error (section 7,
    NoSuchKey). *)
Definition NoSuchKey : error := errors_New "NoSuchKey".

(** Modelled from the spec: the loop of the collection's lookup, whose
    implementation is not among the sources (section 4.2): members are
    tried in order, the first success is returned, and [err] is the error
    to return when none is left. *)
Fixpoint tryMembers (err : error) (tmc : list TrustedMaterial) (keyID : string)
  : result V :=
  match tmc with
  | [] => inr err
  | tm :: rest =>
      match PublicKeyVerifier tm keyID with
      | inl v => inl v
      | inr e => tryMembers e rest keyID
      end
  end.

(** Modelled from the spec: [TrustedMaterialCollection.PublicKeyVerifier]
    (section 4.2): the last member's error when every member fails,
    [NoSuchKey] when there is no member. *)
Definition Collection_PublicKeyVerifier (tmc : TrustedMaterialCollection)
    (keyID : string) : result V :=
  tryMembers NoSuchKey tmc keyID.

(** A member fails to resolve an identifier. *)
Definition fails (tm : TrustedMaterial) (keyID : string) : Prop :=
  exists e, PublicKeyVerifier tm keyID = inr e.

(** [tm] at position [i] is the first member that resolves [keyID], to [v]. *)
Definition first_resolution (tmc : TrustedMaterialCollection) (keyID : string)
    (i : nat) (v : V) : Prop :=
  (exists tm, tmc !! i = Some tm /\ PublicKeyVerifier tm keyID = inl v) /\
  forall (j : nat) tm', (j < i)%nat -> tmc !! j = Some tm' -> fails tm' keyID.

End Collection.

Arguments TrustedMaterial : clear implicits.
Arguments TrustedMaterialCollection : clear implicits.

(** ** The trust root *)

(** Modelled from the spec: the algorithm normalization of section 4.1, whose
    implementation is not among the sources: the hash function that goes
    with a key-details tag ([TestTrustedMaterialCollectionED25519] expects
    SHA-512 for Ed25519); an unrecognized tag has none. *)
Definition signatureHashFunc (d : PublicKeyDetails) : option crypto_Hash :=
  match d with
  | PKIX_RSA_PKCS1V15_2048_SHA256
  | PKIX_RSA_PKCS1V15_3072_SHA256
  | PKIX_RSA_PKCS1V15_4096_SHA256 => Some SHA256
  | PKIX_ECDSA_P256_SHA_256 => Some SHA256
  | PKIX_ECDSA_P384_SHA_384 => Some SHA384
  | PKIX_ECDSA_P521_SHA_512 => Some SHA512
  | PKIX_ED25519 => Some SHA512
  | PUBLIC_KEY_DETAILS_UNSPECIFIED => None
  end.

(** Modelled from the spec: a log of the trust root (section 3,
    TransparencyLogInstance); the tests read [SignatureHashFunc] and
    [ValidityPeriodEnd] of it. *)
Record TransparencyLog : Type :=
  { BaseURL : string;
    ID : string;
    tl_PublicKey : bytes;
    tl_KeyDetails : PublicKeyDetails;
    SignatureHashFunc : option crypto_Hash;
    tl_period : ValidityPeriod }.

(** Modelled from the spec: a certificate authority and a timestamping
    authority of the trust root (section 3): a chain and a validity period.
    The tests index both collections by position. *)
Record FulcioCertificateAuthority : Type :=
  { ca_chain : list bytes;
    ca_period : ValidityPeriod }.
Record SigstoreTimestampingAuthority : Type :=
  { tsa_chain : list bytes;
    tsa_period : ValidityPeriod }.

(** Modelled from the spec: the trust root (section 3), with the fields the
    tests read; [trustedRoot] is the wire value it was parsed from. *)
Record TrustedRoot : Type :=
  { trustedRoot : TrustedRootProto Time;
    rekorLogs : gmap string TransparencyLog;
    certificateAuthorities : list FulcioCertificateAuthority;
    ctLogs : gmap string TransparencyLog;
    timestampingAuthorities : list SigstoreTimestampingAuthority }.

(** The media type the tests expect of the example root; its text is the
    one section 6 gives. *)
Definition TrustedRootMediaType01 : string :=
  "application/vnd.dev.sigstore.trustedroot+json;version=0.1".

Definition period_of (r : TimeRange Time) : ValidityPeriod :=
  {| ValidityPeriodStart := Start r; ValidityPeriodEnd := End r |}.
Definition range_of (p : ValidityPeriod) : TimeRange Time :=
  {| Start := ValidityPeriodStart p; End := ValidityPeriodEnd p |}.

Section Construction.

(** The rendering of a log identifier as the hex string under which the log
    is filed (the tests look logs up by such strings). *)
Variable encodeID : bytes -> string.

(** Modelled from the spec: the lookup key of a wire log, the log identifier
    of section 3.  It is the identifier the wire entry carries: section 4.1
    would derive it from the public key, but
    [TestTrustedMaterialCollectionED25519] gives every log of the document
    the same public key and then constructs the trust root without error,
    which a key derived from the public key (with section 4.1's rejection
    of duplicates) does not allow. *)
Definition logKey (w : TransparencyLogInstance Time) : string :=
  encodeID (LogId w).

(** Modelled from the spec: the model's reading of one wire log (section 3
    and the algorithm normalization of section 4.1). *)
Definition ParseTransparencyLog (w : TransparencyLogInstance Time) : TransparencyLog :=
  {| BaseURL := BaseUrl w;
     ID := logKey w;
     tl_PublicKey := RawBytes (tli_PublicKey w);
     tl_KeyDetails := KeyDetails (tli_PublicKey w);
     SignatureHashFunc := signatureHashFunc (KeyDetails (tli_PublicKey w));
     tl_period := period_of (ValidFor (tli_PublicKey w)) |}.

(** Modelled from the spec: indexing the logs of one category (section 4.1,
    construction): a second entry under a key already taken is a
    construction failure. *)
Fixpoint ParseTransparencyLogs (logs : list (TransparencyLogInstance Time))
    (acc : gmap string TransparencyLog) : result (gmap string TransparencyLog) :=
  match logs with
  | [] => inl acc
  | w :: rest =>
      match acc !! logKey w with
      | Some _ => inr MalformedTrustRoot
      | None => ParseTransparencyLogs rest (<[logKey w := ParseTransparencyLog w]> acc)
      end
  end.

Definition ParseCertificateAuthority (w : CertificateAuthority Time)
  : FulcioCertificateAuthority :=
  {| ca_chain := CertChain w; ca_period := period_of (ca_ValidFor w) |}.
Definition ParseTimestampingAuthority (w : CertificateAuthority Time)
  : SigstoreTimestampingAuthority :=
  {| tsa_chain := CertChain w; tsa_period := period_of (ca_ValidFor w) |}.

(** Modelled from the spec: [NewTrustedRootFromProtobuf], whose
    implementation is not among the sources (section 4.1, construction):
    the media type must be a recognized one, every category is indexed, and
    the wire value is kept. *)
Definition NewTrustedRootFromProtobuf (p : TrustedRootProto Time) : result TrustedRoot :=
  if bool_decide (MediaType p = TrustedRootMediaType01) then
    bindR (ParseTransparencyLogs (Tlogs p) ∅) (fun rekor =>
    bindR (ParseTransparencyLogs (Ctlogs p) ∅) (fun ct =>
    inl {| trustedRoot := p;
           rekorLogs := rekor;
           certificateAuthorities := ParseCertificateAuthority <$> CertificateAuthorities p;
           ctLogs := ct;
           timestampingAuthorities := ParseTimestampingAuthority <$> TimestampAuthorities p |}))
  else inr MalformedTrustRoot.

(** Modelled from the spec: [NewTrustedRootFromJSON] (section 4.1): decode
    the document, then construct as above. *)
Definition NewTrustedRootFromJSON (d : TrustedRootProto JSONTimestamp) : result TrustedRoot :=
  bindR (Unmarshal d) NewTrustedRootFromProtobuf.

(** Modelled from the spec: writing the model's fields of one log back into
    the wire entry it was read from (section 9: only interpreted fields are
    patched into the copy of the original). *)
Definition patchLog (m : gmap string TransparencyLog)
    (w : TransparencyLogInstance Time) : TransparencyLogInstance Time :=
  match m !! logKey w with
  | Some e =>
      {| BaseUrl := BaseURL e;
         LogId := LogId w;
         tli_PublicKey :=
           {| RawBytes := tl_PublicKey e;
              KeyDetails := tl_KeyDetails e;
              ValidFor := range_of (tl_period e) |};
         tli_unknown := tli_unknown w |}
  | None => w
  end.

(** The authorities are kept in order: each is written back by position. *)
Fixpoint patchAuthorities {A} (chain : A -> list bytes) (per : A -> ValidityPeriod)
    (cas : list A) (ws : list (CertificateAuthority Time))
  : list (CertificateAuthority Time) :=
  match ws, cas with
  | w :: ws', c :: cas' =>
      {| CertChain := chain c;
         ca_ValidFor := range_of (per c);
         ca_unknown := ca_unknown w |} :: patchAuthorities chain per cas' ws'
  | _, _ => ws
  end.

(** Modelled from the spec: the wire value to serialize (section 4.1,
    serialization): the originally parsed one, overlaid with the fields the
    model manages. *)
Definition constructProtoTrustRoot (tr : TrustedRoot) : TrustedRootProto Time :=
  let p := trustedRoot tr in
  {| MediaType := MediaType p;
     Tlogs := patchLog (rekorLogs tr) <$> Tlogs p;
     CertificateAuthorities :=
       patchAuthorities ca_chain ca_period (certificateAuthorities tr)
         (CertificateAuthorities p);
     Ctlogs := patchLog (ctLogs tr) <$> Ctlogs p;
     TimestampAuthorities :=
       patchAuthorities tsa_chain tsa_period (timestampingAuthorities tr)
         (TimestampAuthorities p);
     unknown := unknown p |}.

(** Modelled from the spec: [MarshalJSON] of a trust root (section 4.1). *)
Definition MarshalJSON (tr : TrustedRoot) : TrustedRootProto JSONTimestamp :=
  Marshal (constructProtoTrustRoot tr).

(** The substitution of [TestTrustedMaterialCollectionED25519] on one log:
    Ed25519 key details and the given key bytes. *)
Definition withEd25519Key (derBytes : bytes) (w : TransparencyLogInstance Time)
  : TransparencyLogInstance Time :=
  {| BaseUrl := BaseUrl w;
     LogId := LogId w;
     tli_PublicKey :=
       {| RawBytes := derBytes;
          KeyDetails := PKIX_ED25519;
          ValidFor := ValidFor (tli_PublicKey w) |};
     tli_unknown := tli_unknown w |}.

(** The substitution on the logs that [sel] picks, the others left as they
    are; the tests pick every log. *)
Definition replaceKey (sel : TransparencyLogInstance Time -> bool)
    (derBytes : bytes) (w : TransparencyLogInstance Time)
  : TransparencyLogInstance Time :=
  if sel w then withEd25519Key derBytes w else w.

(** The document after the substitution on the rekor logs that [selT] picks
    and on the CT logs that [selC] picks (lines 134-144 of the test file,
    which pick all of them). *)
Definition replaceKeys (selT selC : TransparencyLogInstance Time -> bool)
    (derBytes : bytes) (p : TrustedRootProto Time) : TrustedRootProto Time :=
  {| MediaType := MediaType p;
     Tlogs := replaceKey selT derBytes <$> Tlogs p;
     CertificateAuthorities := CertificateAuthorities p;
     Ctlogs := replaceKey selC derBytes <$> Ctlogs p;
     TimestampAuthorities := TimestampAuthorities p;
     unknown := unknown p |}.


End Construction.

(** ** An example document *)

(** A stand-in for the hex rendering: the bytes read as characters. *)
Definition stub_encodeID (key : bytes) : string :=
  String.string_of_list_ascii ((fun z => Ascii.ascii_of_N (Z.to_N z)) <$> key).

Definition json_time (s : Z) (f : option Z) : JSONTimestamp :=
  {| ts_seconds := s; ts_fraction := f |}.

(** One rekor log, one authority and two CT logs; start times are written
    with a zero fraction, one end time with half a second, and every level
    carries a field the model does not read. *)
Definition example_document : TrustedRootProto JSONTimestamp :=
  {| MediaType := TrustedRootMediaType01;
     Tlogs :=
       [ {| BaseUrl := "https://rekor.sigstore.dev";
            LogId := [192; 210];
            tli_PublicKey :=
              {| RawBytes := [114; 101; 107];
                 KeyDetails := PKIX_ECDSA_P256_SHA_256;
                 ValidFor := {| Start := json_time 1610000000 (Some 0);
                                End := None |} |};
            tli_unknown := [("hashAlgorithm", "SHA2_256")] |} ];
     CertificateAuthorities :=
       [ {| CertChain := [[48; 130]; [48; 131]];
            ca_ValidFor := {| Start := json_time 1600000000 (Some 0);
                              End := Some (json_time 1700000000 (Some 500000000)) |};
            ca_unknown := [("uri", "https://fulcio.sigstore.dev")] |} ];
     Ctlogs :=
       [ {| BaseUrl := "https://ctfe.sigstore.dev/test";
            LogId := [8; 96];
            tli_PublicKey :=
              {| RawBytes := [99; 116; 49];
                 KeyDetails := PKIX_ECDSA_P256_SHA_256;
                 ValidFor := {| Start := json_time 1610000000 (Some 0);
                                End := Some (json_time 1660000000 (Some 0)) |} |};
            tli_unknown := [] |};
         {| BaseUrl := "https://ctfe.sigstore.dev/2022";
            LogId := [221; 61];
            tli_PublicKey :=
              {| RawBytes := [99; 116; 50];
                 KeyDetails := PKIX_ECDSA_P256_SHA_256;
                 ValidFor := {| Start := json_time 1660000000 None;
                                End := None |} |};
            tli_unknown := [] |} ];
     TimestampAuthorities := [];
     unknown := [("x-vendor", "kept")] |}.

(** The wire value it decodes to. *)
Definition example_proto : TrustedRootProto Time :=
  {| MediaType := TrustedRootMediaType01;
     Tlogs :=
       [ {| BaseUrl := "https://rekor.sigstore.dev";
            LogId := [192; 210];
            tli_PublicKey :=
              {| RawBytes := [114; 101; 107];
                 KeyDetails := PKIX_ECDSA_P256_SHA_256;
                 ValidFor := {| Start := 1610000000000000000; End := None |} |};
            tli_unknown := [("hashAlgorithm", "SHA2_256")] |} ];
     CertificateAuthorities :=
       [ {| CertChain := [[48; 130]; [48; 131]];
            ca_ValidFor := {| Start := 1600000000000000000;
                              End := Some 1700000000500000000 |};
            ca_unknown := [("uri", "https://fulcio.sigstore.dev")] |} ];
     Ctlogs :=
       [ {| BaseUrl := "https://ctfe.sigstore.dev/test";
            LogId := [8; 96];
            tli_PublicKey :=
              {| RawBytes := [99; 116; 49];
                 KeyDetails := PKIX_ECDSA_P256_SHA_256;
                 ValidFor := {| Start := 1610000000000000000;
                                End := Some 1660000000000000000 |} |};
            tli_unknown := [] |};
         {| BaseUrl := "https://ctfe.sigstore.dev/2022";
            LogId := [221; 61];
            tli_PublicKey :=
              {| RawBytes := [99; 116; 50];
                 KeyDetails := PKIX_ECDSA_P256_SHA_256;
                 ValidFor := {| Start := 1660000000000000000; End := None |} |};
            tli_unknown := [] |} ];
     TimestampAuthorities := [];
     unknown := [("x-vendor", "kept")] |}.

(** The trust root built from it. *)
Definition example_root : TrustedRoot :=
  {| trustedRoot := example_proto;
     rekorLogs :=
       list_to_map
         ((fun w => (logKey stub_encodeID w, ParseTransparencyLog stub_encodeID w))
            <$> Tlogs example_proto);
     certificateAuthorities :=
       ParseCertificateAuthority <$> CertificateAuthorities example_proto;
     ctLogs :=
       list_to_map
         ((fun w => (logKey stub_encodeID w, ParseTransparencyLog stub_encodeID w))
            <$> Ctlogs example_proto);
     timestampingAuthorities := [] |}.

(** The document after the substitution of
    [TestTrustedMaterialCollectionED25519]: the one key on its rekor log and
    on both of its CT logs. *)
Definition ed25519_key : bytes := [247; 12; 184; 186].
Definition every_log (_ : TransparencyLogInstance Time) : bool := true.
Definition ed25519_proto : TrustedRootProto Time :=
  replaceKeys every_log every_log ed25519_key example_proto.


(** A key valid for one day from instant 100, and one that never expires. *)
Definition a_day : Z := 86400 * nanosPerSecond.
Definition expiring_key : TimeConstrainedVerifier string :=
  {| verifier := "ecdsa";
     period := {| ValidityPeriodStart := 100; ValidityPeriodEnd := Some (100 + a_day) |} |}.
Definition lasting_key : TimeConstrainedVerifier string :=
  {| verifier := "ecdsa";
     period := {| ValidityPeriodStart := 100; ValidityPeriodEnd := None |} |}.

(** A trust material that knows one identifier. *)
Definition knows (id : string) (v : string) : TrustedMaterial string :=
  {| PublicKeyVerifier := fun keyID =>
       if bool_decide (keyID = id) then inl v
       else inr (errors_New (String.append "unknown key: " keyID)) |}.

(** ** Properties *)

Section CollectionProperties.

Context {V : Type}.
Implicit Types (tmc : list (TrustedMaterial V)) (keyID : string) (v : V).

Lemma tryMembers_inl err tmc keyID v :
  tryMembers err tmc keyID = inl v <->
  exists i, first_resolution tmc keyID i v.
Proof.
  revert err. induction tmc as [|tm rest IH]; intros err; cbn.
  - split; [done|]. by intros (i & (tm & Hi & _) & _).
  - destruct (PublicKeyVerifier tm keyID) as [v'|e] eqn:Htm.
    + split.
      * intros [= ->]. exists 0%nat. split; [by exists tm|]. intros j ? Hj. lia.
      * intros ([|i] & (tm' & Hi & Hv) & Hbefore).
        -- cbn in Hi. injection Hi as <-. congruence.
        -- destruct (Hbefore 0%nat tm) as [e He]; [lia|done|congruence].
    + rewrite IH. split.
      * intros (i & (tm' & Hi & Hv) & Hbefore). exists (S i).
        split; [by exists tm'|]. intros [|j] tm'' Hj Hl.
        -- cbn in Hl. simplify_eq. by exists e.
        -- apply (Hbefore j); [lia|done].
      * intros ([|i] & (tm' & Hi & Hv) & Hbefore).
        -- cbn in Hi. injection Hi as <-. congruence.
        -- exists i. split; [by exists tm'|]. intros j tm'' Hj Hl.
           apply (Hbefore (S j)); [lia|done].
Qed.

Lemma tryMembers_inr err tmc keyID e :
  tryMembers err tmc keyID = inr e ->
  Forall (fun tm => fails tm keyID) tmc /\
  match last tmc with
  | Some tm => PublicKeyVerifier tm keyID = inr e
  | None => e = err
  end.
Proof.
  revert err. induction tmc as [|tm rest IH]; intros err; cbn.
  - intros [= ->]. by split.
  - destruct (PublicKeyVerifier tm keyID) as [v'|e'] eqn:Htm; [done|].
    intros Hrest. destruct (IH _ Hrest) as [Hall Hlast]. split.
    + constructor; [by exists e'|done].
    + destruct rest as [|tm' rest'].
      * cbn in *. congruence.
      * rewrite last_cons_cons.
        destruct (last (tm' :: rest')) eqn:Hl; [done|].
        by apply last_None in Hl.
Qed.

Lemma tryMembers_all_fail err tmc keyID :
  Forall (fun tm => fails tm keyID) tmc ->
  exists e, tryMembers err tmc keyID = inr e.
Proof.
  revert err. induction tmc as [|tm rest IH]; intros err Hall; cbn.
  - by exists err.
  - apply Forall_cons in Hall as [[e He] Hrest]. rewrite He. by apply IH.
Qed.

(** C2. The collection's lookup returns the result of the first member, in
    sequence order, that resolves the identifier; it returns an error
    exactly when no member resolves it, and that error is the last member's
    (the generic [NoSuchKey] for the empty sequence). *)
Theorem collection_first_match_wins (tmc : TrustedMaterialCollection V)
    (keyID : string) :
  (forall v, Collection_PublicKeyVerifier tmc keyID = inl v <->
             exists i, first_resolution tmc keyID i v) /\
  ((exists e, Collection_PublicKeyVerifier tmc keyID = inr e) <->
   Forall (fun tm => fails tm keyID) tmc) /\
  (forall e, Collection_PublicKeyVerifier tmc keyID = inr e ->
             match last tmc with
             | Some tm => PublicKeyVerifier tm keyID = inr e
             | None => e = NoSuchKey
             end).
Proof.
  unfold Collection_PublicKeyVerifier. split; [|split].
  - intros v. apply tryMembers_inl.
  - split.
    + intros [e He]. by apply tryMembers_inr in He as [? _].
    + apply tryMembers_all_fail.
  - intros e He. by apply tryMembers_inr in He as [_ ?].
Qed.

(** The shape the tests build: when the trusted root does not know the
    identifier, the pinned key answers. *)
Lemma collection_falls_back_to_single_key (root : TrustedMaterial V)
    (v : V) (keyID : string) :
  fails root keyID ->
  Collection_PublicKeyVerifier [root; singleKeyVerifier v] keyID = inl v.
Proof. intros [e He]. cbn. by rewrite He. Qed.

End CollectionProperties.

(** *** The codec *)

Lemma decodeTime_encodeTime j t :
  decodeTime j = inl t -> encodeTime t = stripZeroFraction j.
Proof.
  unfold decodeTime, encodeTime, stripZeroFraction, nanosPerSecond.
  destruct j as [s [f|]]; cbn.
  - case_bool_decide as Hf; [|done]. intros [= <-].
    rewrite Z.div_add_l, Z.div_small, Z.add_0_r by lia.
    rewrite Z.add_comm, Z.mod_add, Z.mod_small by lia.
    case_bool_decide as Hz; [by subst|]. by destruct f.
  - intros [= <-]. rewrite Z.div_mul, Z.mod_mul by lia. done.
Qed.

Section Traverse.

(** A rewriting [f] that can fail, a rewriting back [g], and what the two
    amount to on the value rewritten: [n]. *)
Context {T U W : Type} (f : T -> result U) (g : U -> W) (n : T -> W).
Hypothesis f_g : forall t u, f t = inl u -> g u = n t.

Lemma TimeRange_traverse_map r r' :
  TimeRange_traverse f r = inl r' -> TimeRange_map g r' = TimeRange_map n r.
Proof.
  unfold TimeRange_traverse, TimeRange_map. destruct r as [s e]; cbn.
  destruct (f s) as [s'|] eqn:Hs; cbn; [|done].
  destruct e as [e|]; cbn.
  - destruct (f e) as [e'|] eqn:He; cbn; [|done].
    intros [= <-]; cbn. by rewrite (f_g _ _ Hs), (f_g _ _ He).
  - intros [= <-]; cbn. by rewrite (f_g _ _ Hs).
Qed.

Lemma TransparencyLogInstance_traverse_map l l' :
  TransparencyLogInstance_traverse f l = inl l' ->
  TransparencyLogInstance_map g l' = TransparencyLogInstance_map n l.
Proof.
  unfold TransparencyLogInstance_traverse, PublicKey_traverse.
  destruct (TimeRange_traverse f (ValidFor (tli_PublicKey l))) as [v|] eqn:Hv;
    cbn; [|done].
  intros [= <-]. unfold TransparencyLogInstance_map, PublicKey_map; cbn.
  by rewrite (TimeRange_traverse_map _ _ Hv).
Qed.

Lemma CertificateAuthority_traverse_map c c' :
  CertificateAuthority_traverse f c = inl c' ->
  CertificateAuthority_map g c' = CertificateAuthority_map n c.
Proof.
  unfold CertificateAuthority_traverse.
  destruct (TimeRange_traverse f (ca_ValidFor c)) as [v|] eqn:Hv; cbn; [|done].
  intros [= <-]. unfold CertificateAuthority_map; cbn.
  by rewrite (TimeRange_traverse_map _ _ Hv).
Qed.

Lemma mapR_fmap {A B C} (h : A -> result B) (gb : B -> C) (na : A -> C) :
  (forall a b, h a = inl b -> gb b = na a) ->
  forall l l', mapR h l = inl l' -> gb <$> l' = na <$> l.
Proof.
  intros Hh. induction l as [|a l IH]; intros l'; cbn.
  - by intros [= <-].
  - destruct (h a) as [b|] eqn:Ha; cbn; [|done].
    destruct (mapR h l) as [bs|]; cbn; [|done].
    intros [= <-]. cbn. by rewrite (Hh _ _ Ha), (IH bs).
Qed.

Lemma TrustedRootProto_traverse_map d d' :
  TrustedRootProto_traverse f d = inl d' ->
  TrustedRootProto_map g d' = TrustedRootProto_map n d.
Proof.
  unfold TrustedRootProto_traverse.
  destruct (mapR _ (Tlogs d)) as [tlogs|] eqn:H1; cbn; [|done].
  destruct (mapR _ (CertificateAuthorities d)) as [cas|] eqn:H2; cbn; [|done].
  destruct (mapR _ (Ctlogs d)) as [ctlogs|] eqn:H3; cbn; [|done].
  destruct (mapR _ (TimestampAuthorities d)) as [tsas|] eqn:H4; cbn; [|done].
  intros [= <-]. unfold TrustedRootProto_map; cbn.
  rewrite (mapR_fmap _ _ _ TransparencyLogInstance_traverse_map _ _ H1).
  rewrite (mapR_fmap _ _ _ CertificateAuthority_traverse_map _ _ H2).
  rewrite (mapR_fmap _ _ _ TransparencyLogInstance_traverse_map _ _ H3).
  by rewrite (mapR_fmap _ _ _ CertificateAuthority_traverse_map _ _ H4).
Qed.

End Traverse.

(** Decoding a document and encoding it again strips the zero fractions and
    changes nothing else. *)
Lemma Unmarshal_Marshal d p :
  Unmarshal d = inl p -> Marshal p = TrustedRootProto_map stripZeroFraction d.
Proof.
  apply TrustedRootProto_traverse_map, decodeTime_encodeTime.
Qed.

Lemma uninterpreted_map {T U} (g : T -> U) (d : TrustedRootProto T) :
  uninterpreted (TrustedRootProto_map g d) = uninterpreted d.
Proof.
  unfold uninterpreted, TrustedRootProto_map; cbn.
  by rewrite <- !list_fmap_compose.
Qed.

(** *** Construction and serialization *)

Section ConstructionProperties.

Variable encodeID : bytes -> string.

Local Abbreviation logKey := (logKey encodeID).
Local Abbreviation ParseTransparencyLog := (ParseTransparencyLog encodeID).
Local Abbreviation ParseTransparencyLogs := (ParseTransparencyLogs encodeID).

(** Indexing keeps what was there and files every log under its key. *)
Lemma ParseTransparencyLogs_lookup logs acc m :
  ParseTransparencyLogs logs acc = inl m ->
  acc ⊆ m /\
  forall w, w ∈ logs -> m !! logKey w = Some (ParseTransparencyLog w).
Proof.
  revert acc. induction logs as [|w rest IH]; intros acc; cbn.
  - intros [= <-]. split; [done|]. intros w Hw. by apply elem_of_nil in Hw.
  - destruct (acc !! logKey w) eqn:Hfree; [done|]. intros Hrest.
    destruct (IH _ Hrest) as [Hsub Hall]. split.
    + etrans; [|done]. by apply insert_subseteq.
    + intros w' [->|Hw']%elem_of_cons; [|by apply Hall].
      eapply lookup_weaken; [|done]. apply lookup_insert_eq.
Qed.

(** Nothing else gets into the index, and nothing under another key. *)
Lemma ParseTransparencyLogs_source logs acc m k e :
  ParseTransparencyLogs logs acc = inl m ->
  m !! k = Some e ->
  acc !! k = Some e \/
  exists w, w ∈ logs /\ k = logKey w /\ e = ParseTransparencyLog w.
Proof.
  revert acc. induction logs as [|w rest IH]; intros acc; cbn.
  - intros [= <-]. by left.
  - destruct (acc !! logKey w) eqn:Hfree; [done|]. intros Hrest Hk.
    destruct (IH _ Hrest Hk) as [Hacc|(w' & Hw' & -> & ->)].
    + apply lookup_insert_Some in Hacc as [[<- <-]|[_ Hacc]]; [|by left].
      right. exists w. split; [apply elem_of_cons; by left|done].
    + right. exists w'. split; [apply elem_of_cons; by right|done].
Qed.


Lemma patchLog_parsed m w :
  m !! logKey w = Some (ParseTransparencyLog w) -> patchLog encodeID m w = w.
Proof.
  unfold patchLog. intros ->. by destruct w as [? ? [? ? [? ?]] ?].
Qed.

Lemma patchLogs_parsed logs acc m :
  ParseTransparencyLogs logs acc = inl m ->
  patchLog encodeID m <$> logs = logs.
Proof.
  intros [_ Hall]%ParseTransparencyLogs_lookup.
  rewrite <- (list_fmap_id logs) at 2. apply list_fmap_ext.
  intros i w Hw. apply patchLog_parsed, Hall. by eapply list_elem_of_lookup_2.
Qed.

Lemma patchAuthorities_parsed {A} (chain : A -> list bytes)
    (per : A -> ValidityPeriod) (parse : CertificateAuthority Time -> A) ws :
  (forall w, chain (parse w) = CertChain w) ->
  (forall w, per (parse w) = period_of (ca_ValidFor w)) ->
  patchAuthorities chain per (parse <$> ws) ws = ws.
Proof.
  intros Hchain Hper. induction ws as [|w ws IH]; cbn; [done|].
  rewrite IH, Hchain, Hper. by destruct w as [? [? ?] ?].
Qed.

(** A trust root parsed from a wire value serializes that very value. *)
Lemma constructProtoTrustRoot_parsed p tr :
  NewTrustedRootFromProtobuf encodeID p = inl tr ->
  constructProtoTrustRoot encodeID tr = p.
Proof.
  unfold NewTrustedRootFromProtobuf. case_bool_decide; [|done].
  destruct (ParseTransparencyLogs (Tlogs p) ∅) as [rekor|] eqn:Hr; cbn; [|done].
  destruct (ParseTransparencyLogs (Ctlogs p) ∅) as [ct|] eqn:Hc; cbn; [|done].
  intros [= <-]. unfold constructProtoTrustRoot; cbn.
  rewrite (patchLogs_parsed _ _ _ Hr), (patchLogs_parsed _ _ _ Hc).
  rewrite !patchAuthorities_parsed by done. by destruct p.
Qed.

(** C1. For a document that construction accepts, deserializing and
    serializing again gives the document back with every written zero
    fraction of a timestamp dropped and nothing else changed; in particular
    what the model does not read is returned as it was. *)
Theorem json_round_trip (d : TrustedRootProto JSONTimestamp) (tr : TrustedRoot) :
  NewTrustedRootFromJSON encodeID d = inl tr ->
  MarshalJSON encodeID tr = TrustedRootProto_map stripZeroFraction d /\
  uninterpreted (MarshalJSON encodeID tr) = uninterpreted d.
Proof.
  unfold NewTrustedRootFromJSON, MarshalJSON.
  destruct (Unmarshal d) as [p|] eqn:Hd; cbn; [|done]. intros Hp.
  rewrite (constructProtoTrustRoot_parsed _ _ Hp), (Unmarshal_Marshal _ _ Hd).
  split; [done|]. apply uninterpreted_map.
Qed.




Lemma rekorLogs_of_parsed p tr :
  NewTrustedRootFromProtobuf encodeID p = inl tr ->
  ParseTransparencyLogs (Tlogs p) ∅ = inl (rekorLogs tr).
Proof.
  unfold NewTrustedRootFromProtobuf. case_bool_decide; [|done].
  destruct (ParseTransparencyLogs (Tlogs p) ∅) as [rekor|]; cbn; [|done].
  destruct (ParseTransparencyLogs (Ctlogs p) ∅) as [ct|]; cbn; [|done].
  by intros [= <-].
Qed.







(** The loop of [TestTrustedMaterialCollectionED25519]: once every rekor log
    of the document carries the Ed25519 key, every rekor log of a trust root
    built from it has SHA-512. *)
Lemma substituted_rekorLogs_sha512 (p : TrustedRootProto Time) derBytes tr id e :
  NewTrustedRootFromProtobuf encodeID
    {| MediaType := MediaType p;
       Tlogs := withEd25519Key derBytes <$> Tlogs p;
       CertificateAuthorities := CertificateAuthorities p;
       Ctlogs := withEd25519Key derBytes <$> Ctlogs p;
       TimestampAuthorities := TimestampAuthorities p;
       unknown := unknown p |} = inl tr ->
  rekorLogs tr !! id = Some e ->
  SignatureHashFunc e = Some SHA512.
Proof.
  intros Htr%rekorLogs_of_parsed He. cbn in Htr.
  destruct (ParseTransparencyLogs_source _ _ _ _ _ Htr He)
    as [Hempty|(w & Hw & _ & ->)]; [by rewrite lookup_empty in Hempty|].
  apply list_elem_of_fmap in Hw as (w0 & -> & _). done.
Qed.

End ConstructionProperties.

(** C3. [ValidAtTime t] holds exactly when the start is not after [t] and
    the end, if present, is not before [t]; with no end it holds at every
    time from the start on, however far; with an end [e] (not before the
    start, as the data model requires) it holds at [e] and fails at any
    later time. *)
Theorem ValidAtTime_iff {V} (k : TimeConstrainedVerifier V) :
  (forall t, ValidAtTime k t = true <->
             ValidityPeriodStart (period k) <= t /\
             match ValidityPeriodEnd (period k) with
             | Some e => t <= e
             | None => True
             end) /\
  (ValidityPeriodEnd (period k) = None ->
   forall t, ValidityPeriodStart (period k) <= t -> ValidAtTime k t = true) /\
  (forall e, ValidityPeriodEnd (period k) = Some e ->
             well_formed_period (period k) ->
             ValidAtTime k e = true /\
             forall eps, 0 < eps -> ValidAtTime k (e + eps) = false).
Proof.
  unfold ValidAtTime, well_formed_period.
  split; [|split].
  - intros t. destruct (Z.ltb_spec t (ValidityPeriodStart (period k))).
    + split; [done|lia].
    + destruct (ValidityPeriodEnd (period k)) as [e|]; [|by split].
      destruct (Z.ltb_spec e t); split; (done || lia || by split).
  - intros -> t Ht. by rewrite (proj2 (Z.ltb_ge _ _) Ht).
  - intros e -> Hwf. split.
    + rewrite (proj2 (Z.ltb_ge _ _) Hwf). by rewrite Z.ltb_irrefl.
    + intros eps Heps.
      destruct (Z.ltb_spec (e + eps) (ValidityPeriodStart (period k))); [done|].
      by rewrite (proj2 (Z.ltb_lt _ _)) by lia.
Qed.


(** *** Concrete runs *)

(** C1 at the example document: the written zero fractions are gone, the
    half second and the unread fields are still there. *)
Lemma json_round_trip_witness :
  NewTrustedRootFromJSON stub_encodeID example_document = inl example_root /\
  MarshalJSON stub_encodeID example_root =
    TrustedRootProto_map stripZeroFraction example_document /\
  uninterpreted (MarshalJSON stub_encodeID example_root) =
    uninterpreted example_document.
Proof.
  split; [by vm_compute|].
  apply (json_round_trip stub_encodeID example_document example_root).
  by vm_compute.
Defined.

Example example_round_trip_times :
  (fun l => ValidFor (tli_PublicKey l)) <$> Ctlogs (MarshalJSON stub_encodeID example_root) =
  [ {| Start := json_time 1610000000 None;
       End := Some (json_time 1660000000 None) |};
    {| Start := json_time 1660000000 None; End := None |} ] /\
  ca_ValidFor <$> CertificateAuthorities (MarshalJSON stub_encodeID example_root) =
  [ {| Start := json_time 1600000000 None;
       End := Some (json_time 1700000000 (Some 500000000)) |} ].
Proof. by vm_compute. Qed.


(** The same, computed: the three logs of the document carry one key, the
    trust root is built, its rekor log has SHA-512 and both CT logs are
    filed, each under its own identifier. *)
Example ed25519_rekor_log :
  (fun w => RawBytes (tli_PublicKey w)) <$> (Tlogs ed25519_proto ++ Ctlogs ed25519_proto) =
    [ed25519_key; ed25519_key; ed25519_key] /\
  match NewTrustedRootFromProtobuf stub_encodeID ed25519_proto with
  | inl tr =>
      SignatureHashFunc <$> rekorLogs tr !! stub_encodeID [192; 210] =
        Some (Some SHA512) /\
      tl_PublicKey <$> ctLogs tr !! stub_encodeID [8; 96] = Some ed25519_key /\
      tl_PublicKey <$> ctLogs tr !! stub_encodeID [221; 61] = Some ed25519_key
  | inr _ => False
  end.
Proof. by vm_compute. Qed.

(** The validity checks at the edges of a one-day period, and far beyond
    the start of an open one. *)
Example ValidAtTime_edges :
  well_formed_period (period expiring_key) /\
  ValidAtTime expiring_key 99 = false /\
  ValidAtTime expiring_key 100 = true /\
  ValidAtTime expiring_key (100 + a_day) = true /\
  ValidAtTime expiring_key (100 + a_day + 1) = false /\
  ValidAtTime lasting_key 99 = false /\
  ValidAtTime lasting_key (100 + 100000 * a_day) = true.
Proof. by vm_compute. Qed.

(** Lookups in collections of three, of two and of no members. *)
Example collection_lookups :
  Collection_PublicKeyVerifier
    [knows "a" "v1"; knows "foo" "v2"; singleKeyVerifier "v3"] "foo" = inl "v2" /\
  Collection_PublicKeyVerifier
    [knows "a" "v1"; knows "foo" "v2"; singleKeyVerifier "v3"] "bar" = inl "v3" /\
  Collection_PublicKeyVerifier [knows "a" "v1"; knows "b" "v2"] "foo" =
    PublicKeyVerifier (knows "b" "v2") "foo" /\
  Collection_PublicKeyVerifier [knows "a" "v1"; knows "b" "v2"] "foo" =
    inr (errors_New "unknown key: foo") /\
  Collection_PublicKeyVerifier (V := string) [] "foo" = inr NoSuchKey.
Proof. by vm_compute. Qed.

End Root.
